(** * bigquery_etl.query_scheduling.dag : DAG configuration model

    A shallow embedding of [src/bigquery_etl/query_scheduling/dag.py]:
    the attrs classes [DagDefaultArgs] and [Dag], their validators,
    [Dag.add_tasks], [Dag.from_dict] and [Dag.to_airflow_dag].

    Python objects are mutable, so methods that assign to [self] are
    modelled in a state-and-exception monad whose state survives a
    raised exception.  Python dicts keep insertion order and are modelled
    as association lists with the dict operations written out. *)

From stdpp Require Import base option list strings pretty gmap.
From Stdlib Require Import ZArith Ascii.

#[local] Set Warnings "-register-all".

(** ** Untyped configuration values

    What a parsed YAML/JSON document is made of; also the values stored
    in an instance [__dict__]. *)

Inductive value : Type :=
| VNone
| VBool (b : bool)
| VInt (z : Z)
| VStr (s : string)
| VList (l : list value)
| VDict (d : list (string * value)).

Abbreviation dict := (list (string * value)).

(** [d[k]] : the value bound to [k], if any. *)
Fixpoint dict_get (k : string) (d : dict) : option value :=
  match d with
  | [] => None
  | (k', v) :: d' => if decide (k = k') then Some v else dict_get k d'
  end.

(** [d[k] = v] : an existing key keeps its position and gets the new value,
    a new key goes to the end. *)
Fixpoint dict_set (k : string) (v : value) (d : dict) : dict :=
  match d with
  | [] => [(k, v)]
  | (k', v') :: d' =>
      if decide (k = k') then (k', v) :: d' else (k', v') :: dict_set k v d'
  end.

(** [d.update(other)], also the meaning of [**other] inside a dict display. *)
Definition dict_update (d other : dict) : dict :=
  foldl (fun acc kv => dict_set kv.1 kv.2 acc) d other.

Definition dict_keys (d : dict) : list string := d.*1.

(** A Python dict has no repeated key. *)
Definition dict_wf (d : dict) : Prop := NoDup (dict_keys d).

(** ** Exceptions *)

Inductive type_error : Type :=
| MissingArguments (names : list string)
| NotSubscriptable (v : value)
| NotAMapping (v : value)
| NotIterable (v : value)
| BadIntArgument (v : value).

Inductive value_error : Type :=
| InvalidOwner (v : string)
| InvalidEmail (v : list string)
| InvalidTimedelta (attribute v : string)
| InvalidDate (attribute v : string)
| InvalidDagName (v : string)
| DuplicateTaskNames (names : gset string)
| InvalidScheduleInterval (v : string)
| InvalidLiteral (v : string).

Inductive exn : Type :=
| ValueError (e : value_error)
| TypeError (e : type_error)
| DagParseException (d : dict) (cause : option type_error)
| ForeignError (msg : string).

(** ** Computations that may raise *)

Inductive result (A : Type) : Type :=
| Ok (a : A)
| Raise (e : exn).
Arguments Ok {A} a.
Arguments Raise {A} e.

Global Instance result_ret : MRet result := fun _ a => Ok a.
Global Instance result_bind : MBind result := fun _ _ f m =>
  match m with Ok a => f a | Raise e => Raise e end.
Global Instance result_fmap : FMap result := fun _ _ f m =>
  match m with Ok a => Ok (f a) | Raise e => Raise e end.

Definition is_Ok {A} (m : result A) : bool :=
  match m with Ok _ => true | Raise _ => false end.

(** [if not c: raise ValueError(e)] *)
Definition require (c : bool) (e : value_error) : result unit :=
  if c then Ok () else Raise (ValueError e).

(** ** The predicates imported from [bigquery_etl.query_scheduling.utils] *)

Class Utils : Type := {
  is_timedelta_string : string → bool;
  is_date_string : string → bool;
  is_email : string → bool;
  is_schedule_interval : string → bool;
  is_valid_dag_name : string → bool
}.

(** ** [bigquery_etl.query_scheduling.task.Task], as far as [dag.py] uses it *)

Class TaskClass (Task : Type) : Type := {
  task_name : Task → string
}.

(** ** [DagDefaultArgs] *)

Record DagDefaultArgs : Type := mkDagDefaultArgs {
  owner : string;
  start_date : option string;
  email : list string;
  depends_on_past : bool;
  retry_delay : string;
  email_on_failure : bool;
  email_on_retry : bool;
  retries : Z
}.

(** The keyword arguments of a call [DagDefaultArgs(...)]: [None] is an
    argument that was not passed.  [start_date] may be passed as the
    Python value [None], hence the nested option. *)
Record DagDefaultArgs_kwargs : Type := mkDagDefaultArgs_kwargs {
  kw_owner : option string;
  kw_start_date : option (option string);
  kw_email : option (list string);
  kw_depends_on_past : option bool;
  kw_retry_delay : option string;
  kw_email_on_failure : option bool;
  kw_email_on_retry : option bool;
  kw_retries : option Z
}.

(** The names of the required parameters that a call leaves out. *)
Definition missing (required : list (string * bool)) : list string :=
  (filter (fun p => p.2 = false) required).*1.

Section default_args.
Context `{Utils}.

Definition validate_owner (v : string) : result unit :=
  require (is_email v) (InvalidOwner v).

Definition validate_email (v : list string) : result unit :=
  require (forallb is_email v) (InvalidEmail v).

Definition validate_retry_delay (v : string) : result unit :=
  require (is_timedelta_string v) (InvalidTimedelta "retry_delay" v).

Definition validate_start_date (v : option string) : result unit :=
  match v with
  | None => Ok ()
  | Some s => require (is_date_string s) (InvalidDate "start_date" s)
  end.

(** The [__init__] that attrs generates: bind the arguments (a missing
    required one is a [TypeError]), fill in the defaults, assign every
    attribute, then run the validators in attribute order. *)
Definition DagDefaultArgs_init (kw : DagDefaultArgs_kwargs)
  : result DagDefaultArgs :=
  match kw_owner kw, kw_start_date kw with
  | Some o, Some sd =>
      let self :=
        {| owner := o;
           start_date := sd;
           email := default [] (kw_email kw);
           depends_on_past := default false (kw_depends_on_past kw);
           retry_delay := default "30m" (kw_retry_delay kw);
           email_on_failure := default true (kw_email_on_failure kw);
           email_on_retry := default true (kw_email_on_retry kw);
           retries := default 2%Z (kw_retries kw) |} in
      validate_owner (owner self);;
      validate_start_date (start_date self);;
      validate_email (email self);;
      validate_retry_delay (retry_delay self);;
      Ok self
  | o, sd =>
      Raise (TypeError (MissingArguments
        (missing [("owner", bool_decide (is_Some o));
                  ("start_date", bool_decide (is_Some sd))])))
  end.
End default_args.

(** [to_dict] returns the instance [__dict__]: one entry per attribute,
    in the order [__init__] assigned them. *)
Definition to_dict (self : DagDefaultArgs) : dict :=
  [("owner", VStr (owner self));
   ("start_date", from_option VStr VNone (start_date self));
   ("email", VList (VStr <$> email self));
   ("depends_on_past", VBool (depends_on_past self));
   ("retry_delay", VStr (retry_delay self));
   ("email_on_failure", VBool (email_on_failure self));
   ("email_on_retry", VBool (email_on_retry self));
   ("retries", VInt (retries self))].

(** ** Methods that assign to [self]

    A method is a function from the object's state to its new state and
    an outcome; the state is kept when the method raises. *)

Definition method (S A : Type) : Type := S → S * result A.

Global Instance method_ret S : MRet (method S) := fun _ a s => (s, Ok a).
Global Instance method_bind S : MBind (method S) := fun _ _ f m s =>
  match m s with
  | (s', Ok a) => f a s'
  | (s', Raise e) => (s', Raise e)
  end.

Definition get_self {S} : method S S := fun s => (s, Ok s).
Definition set_self {S} (s' : S) : method S unit := fun _ => (s', Ok ()).
Definition lift {S A} (m : result A) : method S A := fun s => (s, m).

(** [task_names.count(x)] *)
Fixpoint count (x : string) (l : list string) : nat :=
  match l with
  | [] => 0
  | y :: l' => (if decide (y = x) then 1 else 0) + count x l'
  end.

(** ** [Dag] *)

Section dag.
Context `{Utils} {Task : Type} `{TaskClass Task}.

Record Dag : Type := mkDag {
  name : string;
  schedule_interval : string;
  default_args : DagDefaultArgs;
  tasks : list Task
}.

Record Dag_kwargs : Type := mkDag_kwargs {
  kw_name : option string;
  kw_schedule_interval : option string;
  kw_default_args : option DagDefaultArgs;
  kw_tasks : option (list Task)
}.

(** [self.tasks = v] *)
Definition set_tasks (v : list Task) (self : Dag) : Dag :=
  {| name := name self;
     schedule_interval := schedule_interval self;
     default_args := default_args self;
     tasks := v |}.

Definition validate_dag_name (v : string) : result unit :=
  require (is_valid_dag_name v) (InvalidDagName v).

Definition duplicate_task_names (task_names : list string) : gset string :=
  list_to_set (filter (fun task_name => 1 < count task_name task_names) task_names).

Definition validate_tasks (v : list Task) : result unit :=
  let task_names := task_name <$> v in
  let duplicates := duplicate_task_names task_names in
  if decide (0 < size duplicates)
  then Raise (ValueError (DuplicateTaskNames duplicates))
  else Ok ().

Definition validate_schedule_interval (v : string) : result unit :=
  require (is_schedule_interval v) (InvalidScheduleInterval v).

(** The generated [__init__]; [default_args] has no validator. *)
Definition Dag_init (kw : Dag_kwargs) : result Dag :=
  match kw_name kw, kw_schedule_interval kw, kw_default_args kw with
  | Some n, Some si, Some da =>
      let self :=
        {| name := n;
           schedule_interval := si;
           default_args := da;
           tasks := default [] (kw_tasks kw) |} in
      validate_dag_name (name self);;
      validate_schedule_interval (schedule_interval self);;
      validate_tasks (tasks self);;
      Ok self
  | n, si, da =>
      Raise (TypeError (MissingArguments
        (missing [("name", bool_decide (is_Some n));
                  ("schedule_interval", bool_decide (is_Some si));
                  ("default_args", bool_decide (is_Some da))])))
  end.

(** [self.tasks = self.tasks.copy() + tasks], then
    [self.validate_tasks(None, self.tasks)]. *)
Definition add_tasks (new_tasks : list Task) : method Dag unit :=
  self ← get_self;
  set_self (set_tasks (tasks self ++ new_tasks) self);;
  self ← get_self;
  lift (validate_tasks (tasks self)).
End dag.

Arguments Dag Task : clear implicits.
Arguments Dag_kwargs Task : clear implicits.

(** ** [cattr.Converter.structure]

    The converter of cattrs 1.0, the release the module was written
    against, not part of this repository.  It turns an untyped value into an instance of a class:
    for [str], [bool] and [int] it calls the type on the value, for a
    [List[T]] it iterates over the value and structures each element, and
    for an attrs class it looks every attribute up by name in the mapping
    (an absent key is skipped, a key that is not an attribute is ignored),
    structures it at the attribute's type and calls the class with the
    keyword arguments so gathered. *)

Class Converter (Task : Type) : Type := {
  (** [str(v)] for a [v] that is not already a [str] *)
  str_of : value → string;
  (** [int(s)] for a [str]: [None] where Python raises [ValueError] *)
  int_of_str : string → option Z;
  (** the converter at the class [Task] *)
  structure_Task : value → result Task
}.

(** [except TypeError as e: ...] *)
Definition except_TypeError {A} (m : result A) (handler : type_error → result A)
  : result A :=
  match m with
  | Raise (TypeError e) => handler e
  | _ => m
  end.

Section from_dict.
Context `{Utils} {Task : Type} `{TaskClass Task} `{Converter Task}.

(** [str(v)] *)
Definition py_str (v : value) : string :=
  match v with
  | VStr s => s
  | _ => str_of v
  end.

Definition structure_str (v : value) : result string := Ok (py_str v).

Definition structure_bool (v : value) : result bool :=
  Ok match v with
     | VNone => false
     | VBool b => b
     | VInt z => negb (Z.eqb z 0)
     | VStr s => negb (bool_decide (s = ""))
     | VList l => negb (bool_decide (l = []))
     | VDict d => negb (bool_decide (d = []))
     end.

Definition structure_int (v : value) : result Z :=
  match v with
  | VInt z => Ok z
  | VBool b => Ok (if b then 1 else 0)%Z
  | VStr s =>
      match int_of_str s with
      | Some z => Ok z
      | None => Raise (ValueError (InvalidLiteral s))
      end
  | _ => Raise (TypeError (BadIntArgument v))
  end.

(** [for e in obj] *)
Definition iterate (v : value) : result (list value) :=
  match v with
  | VList l => Ok l
  | VDict d => Ok (VStr <$> dict_keys d)
  | VStr s => Ok ((fun c => VStr (String c "")) <$> String.list_ascii_of_string s)
  | _ => Raise (TypeError (NotIterable v))
  end.

Definition structure_list {A} (f : value → result A) (v : value)
  : result (list A) :=
  l ← iterate v; mapM f l.

(** [obj[name]] with [KeyError] skipped, then the conversion. *)
Definition structure_attr {A} (f : value → result A) (attr : string) (obj : dict)
  : result (option A) :=
  match dict_get attr obj with
  | None => Ok None
  | Some v => Some <$> f v
  end.

Definition structure_DagDefaultArgs (v : value) : result DagDefaultArgs :=
  match v with
  | VDict obj =>
      o ← structure_attr structure_str "owner" obj;
      sd ← structure_attr structure_str "start_date" obj;
      em ← structure_attr (structure_list structure_str) "email" obj;
      dp ← structure_attr structure_bool "depends_on_past" obj;
      rd ← structure_attr structure_str "retry_delay" obj;
      ef ← structure_attr structure_bool "email_on_failure" obj;
      er ← structure_attr structure_bool "email_on_retry" obj;
      rt ← structure_attr structure_int "retries" obj;
      DagDefaultArgs_init
        {| kw_owner := o;
           kw_start_date := Some <$> sd;
           kw_email := em;
           kw_depends_on_past := dp;
           kw_retry_delay := rd;
           kw_email_on_failure := ef;
           kw_email_on_retry := er;
           kw_retries := rt |}
  | _ => Raise (TypeError (NotSubscriptable v))
  end.

Definition structure_Dag (obj : dict) : result (Dag Task) :=
  n ← structure_attr structure_str "name" obj;
  si ← structure_attr structure_str "schedule_interval" obj;
  da ← structure_attr structure_DagDefaultArgs "default_args" obj;
  ts ← structure_attr (structure_list structure_Task) "tasks" obj;
  Dag_init
    {| kw_name := n;
       kw_schedule_interval := si;
       kw_default_args := da;
       kw_tasks := ts |}.

(** [{"name": name, **body}] : [body] has to be a mapping. *)
Definition flatten (name : string) (body : value) : result dict :=
  match body with
  | VDict b => Ok (dict_update [("name", VStr name)] b)
  | _ => Raise (TypeError (NotAMapping body))
  end.

Definition from_dict (d : dict) : result (Dag Task) :=
  if decide (length (dict_keys d) ≠ 1)
  then Raise (DagParseException d None)
  else
    except_TypeError
      (match dict_keys d !! 0%nat with
       | Some name =>
           match dict_get name d with
           | Some body => flatten name body ≫= structure_Dag
           | None => Raise (ForeignError "KeyError")
           end
       | None => Raise (ForeignError "IndexError")
       end)
      (fun e => Raise (DagParseException d (Some e))).
End from_dict.

(** ** [Dag.to_airflow_dag]

    The task objects, the BigQuery client, the DAG collection and the
    Jinja environment live outside this module.  They are a [World] that
    [with_dependencies] may change and [render] reads; every call made
    into it is recorded, in order, in a log. *)

Definition AIRFLOW_DAG_TEMPLATE : string := "airflow_dag.j2".

Inductive event (Task : Type) : Type :=
| GetTemplate (template : string)
| WithDependencies (task : Task)
| Render.
Arguments GetTemplate {Task} template.
Arguments WithDependencies {Task} task.
Arguments Render {Task}.

Record outside (World Task : Type) : Type := mkOutside {
  world : World;
  log : list (event Task)
}.
Arguments mkOutside {World Task} world log.
Arguments world {World Task} o.
Arguments log {World Task} o.

(** [for x in l: body(x)] *)
Fixpoint for_each {S A} (body : A → method S unit) (l : list A) : method S unit :=
  match l with
  | [] => mret ()
  | x :: l' => body x;; for_each body l'
  end.

Section to_airflow_dag.
Context {Task : Type} `{TaskClass Task}.
Context {World Client DagCollection Obj Template : Type}.

(** [task.with_dependencies(client, dag_collection)] *)
Variable with_dependencies :
  Task → Client → DagCollection → World → World * result unit.
(** the filters of a fresh [jinja2.Environment] *)
Variable default_filters : gmap string Obj.
(** [dir(formatters)], each name with [getattr(formatters, name)] *)
Variable formatters : list (string * Obj).
Variable callable : Obj → bool.
(** [env.get_template(name)], for an environment with the given filters *)
Variable get_template : gmap string Obj → string → result Template.
(** [dag_template.render(args)] *)
Variable render : Template → Dag Task → World → result string.

Definition record_event (e : event Task) (o : outside World Task)
  : outside World Task :=
  mkOutside (world o) (log o ++ [e]).

Definition call_get_template (filters : gmap string Obj) (template : string)
  : method (outside World Task) Template :=
  fun o => (record_event (GetTemplate template) o, get_template filters template).

Definition call_with_dependencies (task : Task) (client : Client)
    (dag_collection : DagCollection) : method (outside World Task) unit :=
  fun o =>
    let o := record_event (WithDependencies task) o in
    let (w, r) := with_dependencies task client dag_collection (world o) in
    (mkOutside w (log o), r).

Definition call_render (dag_template : Template) (args : Dag Task)
  : method (outside World Task) string :=
  fun o => (record_event Render o, render dag_template args (world o)).

(** load custom formatters into Jinja env *)
Definition load_formatters (filters : gmap string Obj) : gmap string Obj :=
  foldl (fun filters nf => if callable nf.2 then <[nf.1 := nf.2]> filters else filters)
        filters formatters.

Definition to_airflow_dag (self : Dag Task) (client : Client)
    (dag_collection : DagCollection) : method (outside World Task) string :=
  let filters := load_formatters default_filters in
  dag_template ← call_get_template filters AIRFLOW_DAG_TEMPLATE;
  let args := self in
  for_each (fun task => call_with_dependencies task client dag_collection)
           (tasks args);;
  call_render dag_template args.
End to_airflow_dag.

(** ** The predicates of [utils], modelled from the specification

    [bigquery_etl/query_scheduling/utils.py] is not part of the sources
    at hand.  The definitions below follow the specification's wording
    and serve as one concrete instance of [Utils]. *)

Module utils.
Definition is_digit (c : ascii) : bool := bool_decide (is_Some (Ascii.is_nat c)).

Fixpoint skip_digits (l : list ascii) : list ascii :=
  match l with
  | c :: l' => if is_digit c then skip_digits l' else l
  | [] => []
  end.

(** One optional component of a duration literal: one or more digits
    followed by the unit letter [u].  Returns what follows the component
    and whether the component was there. *)
Definition component (u : ascii) (l : list ascii) : list ascii * bool :=
  match l with
  | c :: l' =>
      if is_digit c then
        match skip_digits l' with
        | u' :: rest => if decide (u' = u) then (rest, true) else (l, false)
        | [] => (l, false)
        end
      else (l, false)
  | [] => (l, false)
  end.

(** Modelled from the spec: the duration grammar [[n]d[n]h[n]m] of
    [utils.is_timedelta_string], "each of days/hours/minutes is optional
    but at least one must be present and they must appear in
    day→hour→minute order with no repeats". *)
Definition is_timedelta_string (s : string) : bool :=
  let '(l1, d) := component "d" (String.list_ascii_of_string s) in
  let '(l2, h) := component "h" l1 in
  let '(l3, m) := component "m" l2 in
  bool_decide (l3 = []) && (d || h || m).

(** The presets named in the docstring of [validate_schedule_interval]. *)
Definition presets : list string :=
  ["@once"; "@hourly"; "@daily"; "@weekly"; "@monthly"; "@yearly"].

(** Modelled from the spec: "a 5-whitespace-separated-field cron
    pattern". *)
Definition is_cron (s : string) : bool :=
  bool_decide (length (String.words s) = 5).

(** Modelled from the spec: [utils.is_schedule_interval] "accepts exactly
    the named presets, OR a value matching a 5-whitespace-separated-field
    cron pattern, OR a value matching a duration grammar". *)
Definition is_schedule_interval (s : string) : bool :=
  bool_decide (s ∈ presets) || is_cron s || is_timedelta_string s.

(** Modelled from the spec: [utils.is_valid_dag_name], "name must start
    with the fixed literal prefix"; the prefix is the one named in the
    error message of [validate_dag_name]. *)
Definition is_valid_dag_name (s : string) : bool := String.prefix "bqetl_" s.

(** Modelled from the spec: [utils.is_email], "syntactic address validity
    (local-part@domain shape)": one [@], something on either side of it,
    no white space. *)
Definition is_email (s : string) : bool :=
  let l := String.list_ascii_of_string s in
  forallb (fun c => negb (Ascii.is_space c)) l &&
  match list_find (fun c => c = "@"%char) l with
  | Some (i, _) =>
      bool_decide (0 < i) && bool_decide (S i < length l) &&
      bool_decide ("@"%char ∉ drop (S i) l)
  | None => false
  end.

Fixpoint number (acc : nat) (l : list ascii) : option nat :=
  match l with
  | [] => Some acc
  | c :: l' => n ← Ascii.is_nat c; number (10 * acc + n) l'
  end.

Definition is_leap (y : nat) : bool :=
  (bool_decide (y `mod` 4 = 0) && negb (bool_decide (y `mod` 100 = 0)))
  || bool_decide (y `mod` 400 = 0).

Definition days_in_month (y m : nat) : nat :=
  match m with
  | 2 => if is_leap y then 29 else 28
  | 4 | 6 | 9 | 11 => 30
  | _ => 31
  end.

(** Modelled from the spec: [utils.is_date_string], "strict
    4-digit-year–2-digit-month–2-digit-day format, calendar-valid". *)
Definition is_date_string (s : string) : bool :=
  match String.list_ascii_of_string s with
  | [y1; y2; y3; y4; "-"; m1; m2; "-"; d1; d2]%char =>
      match number 0 [y1; y2; y3; y4], number 0 [m1; m2], number 0 [d1; d2] with
      | Some y, Some m, Some d =>
          bool_decide (1 ≤ m ≤ 12) && bool_decide (1 ≤ d ≤ days_in_month y m)
      | _, _, _ => false
      end
  | _ => false
  end.

Definition spec : Utils :=
  Build_Utils is_timedelta_string is_date_string is_email
              is_schedule_interval is_valid_dag_name.
End utils.

(** ** A small task class and converter, for the worked examples *)

Module task.
(** Modelled from the spec: the class [Task] of
    [bigquery_etl/query_scheduling/task.py], of which the specification
    says "a task reference exposes a stable name (string, used for
    uniqueness)". *)
Record Task : Type := mkTask { name : string }.

Global Instance task_class : TaskClass Task := {| task_name := name |}.

(** Python's [repr] of a [str]: single quotes, unless the text has a
    single quote and no double quote; the backslash, the quote in use, and
    the control characters are escaped.  Bytes from 128 on are the UTF-8
    encoding of text and are kept. *)
Definition hex_digit (n : nat) : ascii :=
  nth n (String.list_ascii_of_string "0123456789abcdef") "0"%char.

Definition repr_char (quote c : ascii) : list ascii :=
  let n := nat_of_ascii c in
  if decide (c = "092"%char) then ["092"; "092"]%char
  else if decide (c = quote) then ["092"%char; quote]
  else if decide (n = 10) then ["092"; "n"]%char
  else if decide (n = 13) then ["092"; "r"]%char
  else if decide (n = 9) then ["092"; "t"]%char
  else if decide (n < 32 ∨ n = 127)
       then ["092"%char; "x"%char; hex_digit (n / 16); hex_digit (n mod 16)]
       else [c].

Definition repr_str (s : string) : string :=
  let l := String.list_ascii_of_string s in
  let quote :=
    if decide ("039"%char ∈ l ∧ "034"%char ∉ l) then "034"%char else "039"%char in
  String.string_of_list_ascii
    (quote :: (l ≫= repr_char quote) ++ [quote]).

(** [", ".join(items)] *)
Definition join (items : list string) : string := String.concat ", " items.

(** Python's [repr]. *)
Fixpoint repr (v : value) : string :=
  match v with
  | VNone => "None"
  | VBool true => "True"
  | VBool false => "False"
  | VInt z => pretty z
  | VStr s => repr_str s
  | VList l => "[" +:+ join (map repr l) +:+ "]"
  | VDict d =>
      "{" +:+ join (map (fun kv => repr_str kv.1 +:+ ": " +:+ repr kv.2) d) +:+ "}"
  end.

(** Python's [str]: the text itself for a [str], [repr] for the rest. *)
Definition str_of (v : value) : string :=
  match v with
  | VStr s => s
  | _ => repr v
  end.

(** The white space that [int] strips: tab to carriage return, the
    separators 28 to 31 and the space. *)
Definition is_space (c : ascii) : bool :=
  Ascii.is_space c || bool_decide (28 ≤ nat_of_ascii c ≤ 31).

Fixpoint lstrip (l : list ascii) : list ascii :=
  match l with
  | c :: l' => if is_space c then lstrip l' else l
  | [] => []
  end.

Definition strip (l : list ascii) : list ascii :=
  reverse (lstrip (reverse (lstrip l))).

(** Decimal digits, single underscores allowed between two of them. *)
Fixpoint digits_value (acc : Z) (after_digit : bool) (l : list ascii) : option Z :=
  match l with
  | [] => if after_digit then Some acc else None
  | c :: l' =>
      match Ascii.is_nat c with
      | Some n => digits_value (10 * acc + Z.of_nat n) true l'
      | None =>
          if decide (c = "_"%char)
          then if after_digit then digits_value acc false l' else None
          else None
      end
  end.

(** Python's [int] on a [str], in base ten: white space around, an
    optional sign, then the digits. *)
Definition int_of_str (s : string) : option Z :=
  match strip (String.list_ascii_of_string s) with
  | "-"%char :: l => Z.opp <$> digits_value 0 false l
  | "+"%char :: l => digits_value 0 false l
  | l => digits_value 0 false l
  end.

(** A task class with the one attribute [task_name], a [str]. *)
Definition structure_Task (v : value) : result Task :=
  match v with
  | VDict obj =>
      match dict_get "task_name" obj with
      | Some v => Ok (mkTask (str_of v))
      | None => Raise (TypeError (MissingArguments ["task_name"]))
      end
  | _ => Raise (TypeError (NotSubscriptable v))
  end.

Global Instance converter : Converter Task :=
  Build_Converter Task str_of int_of_str structure_Task.
End task.

(** ** Names that the statements refer to *)

(** The attribute names, in declaration order. *)
Definition DagDefaultArgs_fields : list string :=
  ["owner"; "start_date"; "email"; "depends_on_past"; "retry_delay";
   "email_on_failure"; "email_on_retry"; "retries"].

(** The instance that [__init__] assigns before it validates. *)
Definition DagDefaultArgs_assigned (o : string) (sd : option string)
    (kw : DagDefaultArgs_kwargs) : DagDefaultArgs :=
  {| owner := o;
     start_date := sd;
     email := default [] (kw_email kw);
     depends_on_past := default false (kw_depends_on_past kw);
     retry_delay := default "30m" (kw_retry_delay kw);
     email_on_failure := default true (kw_email_on_failure kw);
     email_on_retry := default true (kw_email_on_retry kw);
     retries := default 2%Z (kw_retries kw) |}.

(** ** The duration grammar, declaratively *)

(** The duration grammar in the specification's words: days, hours and
    minutes, each a non-empty run of digits followed by its unit letter,
    each optional, in this order, at least one of them present. *)
Definition digits (l : list ascii) : Prop :=
  l ≠ [] ∧ Forall (fun c => utils.is_digit c = true) l.

Definition part (u : ascii) (o : option (list ascii)) : list ascii :=
  match o with
  | Some ds => ds ++ [u]
  | None => []
  end.

Definition duration_literal (s : string) : Prop :=
  ∃ d h m : option (list ascii),
    String.list_ascii_of_string s = part "d" d ++ part "h" h ++ part "m" m ∧
    (is_Some d ∨ is_Some h ∨ is_Some m) ∧
    (∀ ds, d = Some ds ∨ h = Some ds ∨ m = Some ds → digits ds).

(** ** Worked instances *)

(** Calls [DagDefaultArgs(owner="a@b.com", start_date=...)], and one that
    leaves [start_date] out. *)
Definition kwargs_dated : DagDefaultArgs_kwargs :=
  mkDagDefaultArgs_kwargs (Some "a@b.com") (Some (Some "2020-01-01"))
                          None None None None None None.

Definition kwargs_undated : DagDefaultArgs_kwargs :=
  mkDagDefaultArgs_kwargs (Some "a@b.com") (Some None)
                          None None None None None None.

Definition kwargs_no_start_date : DagDefaultArgs_kwargs :=
  mkDagDefaultArgs_kwargs (Some "a@b.com") None
                          None None None None None None.

Definition kwargs_bad_date : DagDefaultArgs_kwargs :=
  mkDagDefaultArgs_kwargs (Some "a@b.com") (Some (Some "01/01/2020"))
                          None None None None None None.

(** Tasks named [A], [B] and [C], and a valid DAG of the first two. *)
Definition task_A : task.Task := task.mkTask "A".
Definition task_B : task.Task := task.mkTask "B".
Definition task_C : task.Task := task.mkTask "C".

Definition default_args_example : DagDefaultArgs :=
  DagDefaultArgs_assigned "a@b.com" (Some "2020-01-01") kwargs_dated.

Definition dag_AB : Dag task.Task :=
  mkDag "bqetl_example" "@daily" default_args_example [task_A; task_B].

(** [{"bqetl_example": {"schedule_interval": "@daily",
      "default_args": {"owner": "a@b.com", "start_date": "2020-01-01"}}}] *)
Definition example_config : dict :=
  [("bqetl_example",
    VDict [("schedule_interval", VStr "@daily");
           ("default_args",
            VDict [("owner", VStr "a@b.com");
                   ("start_date", VStr "2020-01-01")])])].

(** A mapping with two top-level keys. *)
Definition two_key_config : dict :=
  example_config ++
  [("bqetl_other", VDict [("schedule_interval", VStr "@hourly")])].

(** A body that carries a [name] of its own. *)
Definition renamed_config : dict :=
  [("bqetl_example",
    VDict [("schedule_interval", VStr "@daily");
           ("name", VStr "bqetl_inner");
           ("default_args",
            VDict [("owner", VStr "a@b.com");
                   ("start_date", VStr "2020-01-01")])])].

(** The last value bound to [k] in [body], or [x] when there is none. *)
Fixpoint last_binding (k : string) (x : value) (body : dict) : value :=
  match body with
  | [] => x
  | (k', v) :: body' => last_binding k (if decide (k' = k) then v else x) body'
  end.

(** A small outside world for the worked examples: the world is the list
    of the names of the tasks wired so far, the task named [B] cannot be
    wired, and the template lists the wired tasks. *)
Module wiring.
Definition with_dependencies (t : task.Task) (client dag_collection : unit)
    (w : list string) : list string * result unit :=
  if decide (task.name t = "B")
  then (w, Raise (ForeignError "unresolved dependency"))
  else (w ++ [task.name t], Ok ()).

Definition get_template (filters : gmap string unit) (template : string)
  : result string := Ok template.

Definition render (template : string) (args : Dag task.Task) (w : list string)
  : result string :=
  Ok (name args +:+ ": " +:+ String.concat "," w).

Definition to_airflow_dag (self : Dag task.Task)
  : method (outside (list string) task.Task) string :=
  to_airflow_dag with_dependencies ∅ [] (fun _ => true) get_template render
                 self () ().
End wiring.

Definition dag_AC : Dag task.Task :=
  mkDag "bqetl_example" "@daily" default_args_example [task_A; task_C].

(** * Properties *)

(** ** Dicts *)

Lemma dict_get_set_eq k v d : dict_get k (dict_set k v d) = Some v.
Proof.
  induction d as [|[k' v'] d IH]; simpl.
  - by rewrite decide_True.
  - destruct (decide (k = k')) as [->|Hne]; simpl.
    + by rewrite decide_True.
    + by rewrite decide_False.
Qed.

Lemma dict_get_set_ne k k' v d :
  k ≠ k' → dict_get k (dict_set k' v d) = dict_get k d.
Proof.
  intros Hne. induction d as [|[k0 v0] d IH]; simpl.
  - by rewrite decide_False.
  - destruct (decide (k' = k0)) as [->|Hne0]; simpl.
    + by rewrite !decide_False.
    + destruct (decide (k = k0)); done.
Qed.

Lemma dict_get_None k (d : dict) : dict_get k d = None ↔ k ∉ dict_keys d.
Proof.
  induction d as [|[k' v'] d IH]; simpl.
  - split; [intros _; apply not_elem_of_nil | done].
  - rewrite not_elem_of_cons. destruct (decide (k = k')) as [->|Hne].
    + split; [done | by intros [? _]].
    + rewrite IH. split; [by intros ? | by intros [_ ?]].
Qed.

Lemma dict_get_elem k v (d : dict) :
  dict_wf d → (k, v) ∈ d → dict_get k d = Some v.
Proof.
  unfold dict_wf, dict_keys.
  induction d as [|[k' v'] d IH]; simpl; intros Hwf Hin.
  - by apply elem_of_nil in Hin.
  - apply NoDup_cons in Hwf as [Hk' Hwf].
    apply elem_of_cons in Hin as [Heq|Hin].
    + injection Heq as -> ->. by rewrite decide_True.
    + rewrite decide_False; [by apply IH|].
      intros <-. apply Hk'. apply list_elem_of_fmap. by exists (k, v).
Qed.

(** ** [DagDefaultArgs] *)

Lemma require_Ok c e : require c e = Ok () ↔ c = true.
Proof. destruct c; simpl; split; congruence. Qed.

Section default_args_facts.
Context `{Utils}.

Lemma DagDefaultArgs_init_Ok kw o sd :
  kw_owner kw = Some o →
  kw_start_date kw = Some sd →
  is_email o = true →
  validate_start_date sd = Ok () →
  forallb is_email (default [] (kw_email kw)) = true →
  is_timedelta_string (default "30m" (kw_retry_delay kw)) = true →
  DagDefaultArgs_init kw = Ok (DagDefaultArgs_assigned o sd kw).
Proof.
  intros Ho Hsd He Hd Hes Ht. unfold DagDefaultArgs_init.
  rewrite Ho, Hsd. cbn [owner start_date email retry_delay].
  unfold validate_owner, validate_email, validate_retry_delay.
  rewrite He, Hd, Hes, Ht. reflexivity.
Qed.

Lemma DagDefaultArgs_init_inv kw self :
  DagDefaultArgs_init kw = Ok self →
  ∃ o sd,
    kw_owner kw = Some o ∧ kw_start_date kw = Some sd ∧
    self = DagDefaultArgs_assigned o sd kw ∧
    is_email o = true ∧ validate_start_date sd = Ok () ∧
    forallb is_email (email self) = true ∧
    is_timedelta_string (retry_delay self) = true.
Proof.
  unfold DagDefaultArgs_init.
  destruct (kw_owner kw) as [o|], (kw_start_date kw) as [sd|]; try done.
  cbn [owner start_date email retry_delay].
  unfold validate_owner, validate_email, validate_retry_delay.
  destruct (is_email o) eqn:He; [|done].
  destruct (validate_start_date sd) as [[]|] eqn:Hd; [|done].
  destruct (forallb is_email _) eqn:Hes; [|done].
  destruct (is_timedelta_string _) eqn:Ht; [|done].
  cbn. intros [= <-]. by exists o, sd.
Qed.

Lemma DagDefaultArgs_init_missing_start_date kw :
  kw_start_date kw = None →
  ∃ names, DagDefaultArgs_init kw = Raise (TypeError (MissingArguments names))
           ∧ "start_date" ∈ names.
Proof.
  intros Hsd. unfold DagDefaultArgs_init. rewrite Hsd.
  destruct (kw_owner kw); eexists; (split; [reflexivity|]).
  - change ("start_date" ∈ ["start_date"]). apply list_elem_of_here.
  - change ("start_date" ∈ ["owner"; "start_date"]).
    apply list_elem_of_further, list_elem_of_here.
Qed.

Lemma DagDefaultArgs_init_bad_date kw s :
  kw_start_date kw = Some (Some s) →
  is_date_string s = false →
  is_Ok (DagDefaultArgs_init kw) = false.
Proof.
  intros Hsd Hd. destruct (DagDefaultArgs_init kw) as [self|] eqn:Hi; [|done].
  apply DagDefaultArgs_init_inv in Hi as (o & sd & _ & Hsd' & _ & _ & Hv & _).
  rewrite Hsd in Hsd'. injection Hsd' as <-.
  simpl in Hv. by rewrite Hd in Hv.
Qed.
End default_args_facts.

Lemma to_dict_inj self self' : to_dict self' = to_dict self → self' = self.
Proof.
  destruct self as [o sd em dp rd ef er rt], self' as [o' sd' em' dp' rd' ef' er' rt'].
  unfold to_dict; simpl. intros Heq.
  injection Heq as Ho Hsd Hem Hdp Hrd Hef Her Hrt.
  assert (sd' = sd) as -> by (destruct sd, sd'; simplify_eq/=; done).
  assert (em' = em) as ->.
  { revert Hem. generalize em. clear.
    induction em' as [|x l IH]; intros [|y l']; simpl; intros; simplify_eq; [done|].
    f_equal. by apply IH. }
  by simplify_eq.
Qed.

(** C6. For every instance that [DagDefaultArgs(...)] constructs, [to_dict]
    returns a mapping whose keys are the eight attribute names in
    declaration order, nothing left out; each entry holds the value the
    instance holds, which is the constructor argument or its default; and
    the mapping determines the instance (nothing is lost). *)
Theorem to_dict_exposes_every_field `{Utils} kw self :
  DagDefaultArgs_init kw = Ok self →
  dict_keys (to_dict self) = DagDefaultArgs_fields ∧
  (dict_get "owner" (to_dict self) = Some (VStr (owner self)) ∧
   dict_get "start_date" (to_dict self)
     = Some (from_option VStr VNone (start_date self)) ∧
   dict_get "email" (to_dict self) = Some (VList (VStr <$> email self)) ∧
   dict_get "depends_on_past" (to_dict self)
     = Some (VBool (depends_on_past self)) ∧
   dict_get "retry_delay" (to_dict self) = Some (VStr (retry_delay self)) ∧
   dict_get "email_on_failure" (to_dict self)
     = Some (VBool (email_on_failure self)) ∧
   dict_get "email_on_retry" (to_dict self)
     = Some (VBool (email_on_retry self)) ∧
   dict_get "retries" (to_dict self) = Some (VInt (retries self))) ∧
  (∃ o sd,
     kw_owner kw = Some o ∧ kw_start_date kw = Some sd ∧
     to_dict self =
       [("owner", VStr o);
        ("start_date", from_option VStr VNone sd);
        ("email", VList (VStr <$> default [] (kw_email kw)));
        ("depends_on_past", VBool (default false (kw_depends_on_past kw)));
        ("retry_delay", VStr (default "30m" (kw_retry_delay kw)));
        ("email_on_failure", VBool (default true (kw_email_on_failure kw)));
        ("email_on_retry", VBool (default true (kw_email_on_retry kw)));
        ("retries", VInt (default 2%Z (kw_retries kw)))]) ∧
  (∀ self', to_dict self' = to_dict self → self' = self).
Proof.
  intros Hinit. split; [reflexivity|]. split.
  { repeat split; reflexivity. }
  split; [|apply to_dict_inj].
  apply DagDefaultArgs_init_inv in Hinit as (o & sd & Ho & Hsd & -> & _).
  exists o, sd. repeat split; assumption.
Qed.

Lemma to_dict_exposes_every_field_witness :
  to_dict (DagDefaultArgs_assigned "a@b.com" (Some "2020-01-01") kwargs_dated) =
    [("owner", VStr "a@b.com"); ("start_date", VStr "2020-01-01");
     ("email", VList []); ("depends_on_past", VBool false);
     ("retry_delay", VStr "30m"); ("email_on_failure", VBool true);
     ("email_on_retry", VBool true); ("retries", VInt 2)].
Proof.
  destruct (to_dict_exposes_every_field (H:=utils.spec) kwargs_dated
              (DagDefaultArgs_assigned "a@b.com" (Some "2020-01-01") kwargs_dated))
    as (_ & _ & (o & sd & Ho & Hsd & Hd) & _).
  - vm_compute. reflexivity.
  - injection Ho as <-. injection Hsd as <-. exact Hd.
Defined.

(** C10. [start_date] is a required argument, yet the Python value [None]
    may be passed for it: the date validator skips the format check on
    [None], so with the other fields valid the construction succeeds and
    the instance holds, and shows in [to_dict], a [start_date] of [None]. *)
Theorem start_date_None_constructible `{Utils} kw o :
  kw_owner kw = Some o →
  kw_start_date kw = Some None →
  is_email o = true →
  forallb is_email (default [] (kw_email kw)) = true →
  is_timedelta_string (default "30m" (kw_retry_delay kw)) = true →
  validate_start_date None = Ok () ∧
  ∃ self, DagDefaultArgs_init kw = Ok self ∧
          start_date self = None ∧
          dict_get "start_date" (to_dict self) = Some VNone.
Proof.
  intros Ho Hsd He Hes Ht. split; [reflexivity|].
  exists (DagDefaultArgs_assigned o None kw). split; [|split; reflexivity].
  by apply DagDefaultArgs_init_Ok.
Qed.

Lemma start_date_None_constructible_witness :
  ∃ self, DagDefaultArgs_init (H:=utils.spec) kwargs_undated = Ok self ∧
          start_date self = None ∧
          dict_get "start_date" (to_dict self) = Some VNone.
Proof.
  apply (start_date_None_constructible (H:=utils.spec) kwargs_undated "a@b.com");
    vm_compute; reflexivity.
Defined.

(** C2 as stated fails: a call that supplies no [start_date] at all does
    not construct an instance, it raises [TypeError]. *)
Lemma start_date_omitted_raises :
  DagDefaultArgs_init (H:=utils.spec) kwargs_no_start_date
    = Raise (TypeError (MissingArguments ["start_date"])).
Proof. vm_compute. reflexivity. Qed.

(** C2, amended. [start_date] is a required argument that accepts [None]:
    a call that leaves it out raises [TypeError]; a call that passes [None]
    succeeds when the other fields are valid; a call that passes a string
    fails unless the string satisfies [is_date_string], and succeeds with
    that date when it does and the other fields are valid. *)
Theorem start_date_required_nullable `{Utils} kw :
  (kw_start_date kw = None →
   ∃ names, DagDefaultArgs_init kw = Raise (TypeError (MissingArguments names))
            ∧ "start_date" ∈ names) ∧
  (∀ o sd,
     kw_owner kw = Some o →
     kw_start_date kw = Some sd →
     is_email o = true →
     forallb is_email (default [] (kw_email kw)) = true →
     is_timedelta_string (default "30m" (kw_retry_delay kw)) = true →
     match sd with
     | None => ∃ self, DagDefaultArgs_init kw = Ok self ∧ start_date self = None
     | Some s =>
         if is_date_string s
         then ∃ self, DagDefaultArgs_init kw = Ok self ∧ start_date self = Some s
         else DagDefaultArgs_init kw = Raise (ValueError (InvalidDate "start_date" s))
     end) ∧
  (∀ s, kw_start_date kw = Some (Some s) →
        is_date_string s = false →
        is_Ok (DagDefaultArgs_init kw) = false).
Proof.
  split; [apply DagDefaultArgs_init_missing_start_date|].
  split; [|apply DagDefaultArgs_init_bad_date].
  intros o sd Ho Hsd He Hes Ht. destruct sd as [s|].
  - destruct (is_date_string s) eqn:Hd.
    + exists (DagDefaultArgs_assigned o (Some s) kw). split; [|reflexivity].
      apply DagDefaultArgs_init_Ok; try done. simpl. by rewrite Hd.
    + unfold DagDefaultArgs_init. rewrite Ho, Hsd.
      cbn [owner start_date]. unfold validate_owner. rewrite He.
      simpl. by rewrite Hd.
  - exists (DagDefaultArgs_assigned o None kw). split; [|reflexivity].
    by apply DagDefaultArgs_init_Ok.
Qed.

Lemma start_date_required_nullable_witness :
  (∃ names, DagDefaultArgs_init (H:=utils.spec) kwargs_no_start_date
              = Raise (TypeError (MissingArguments names))
            ∧ "start_date" ∈ names) ∧
  (∃ self, DagDefaultArgs_init (H:=utils.spec) kwargs_undated = Ok self
           ∧ start_date self = None) ∧
  (∃ self, DagDefaultArgs_init (H:=utils.spec) kwargs_dated = Ok self
           ∧ start_date self = Some "2020-01-01") ∧
  DagDefaultArgs_init (H:=utils.spec) kwargs_bad_date
    = Raise (ValueError (InvalidDate "start_date" "01/01/2020")) ∧
  is_Ok (DagDefaultArgs_init (H:=utils.spec) kwargs_bad_date) = false.
Proof.
  split; [|split; [|split; [|split]]].
  - apply (proj1 (start_date_required_nullable (H:=utils.spec) kwargs_no_start_date)).
    reflexivity.
  - apply (proj1 (proj2 (start_date_required_nullable (H:=utils.spec) kwargs_undated))
             "a@b.com" None); vm_compute; reflexivity.
  - apply (proj1 (proj2 (start_date_required_nullable (H:=utils.spec) kwargs_dated))
             "a@b.com" (Some "2020-01-01")); vm_compute; reflexivity.
  - apply (proj1 (proj2 (start_date_required_nullable (H:=utils.spec) kwargs_bad_date))
             "a@b.com" (Some "01/01/2020")); vm_compute; reflexivity.
  - apply (proj2 (proj2 (start_date_required_nullable (H:=utils.spec) kwargs_bad_date))
             "01/01/2020"); vm_compute; reflexivity.
Defined.

(** ** Duplicate task names *)

Lemma count_cons_eq x l : count x (x :: l) = S (count x l).
Proof. simpl. by rewrite decide_True. Qed.

Lemma count_cons_ne x y l : y ≠ x → count x (y :: l) = count x l.
Proof. intros Hne. simpl. by rewrite decide_False. Qed.

Lemma count_pos x l : 0 < count x l ↔ x ∈ l.
Proof.
  induction l as [|y l IH].
  - simpl. split; [lia | by intros ?%elem_of_nil].
  - rewrite elem_of_cons. destruct (decide (y = x)) as [->|Hne].
    + rewrite count_cons_eq. split; [by left | lia].
    + rewrite count_cons_ne by done. rewrite IH.
      split; [by right | by intros [->|?]].
Qed.

Lemma count_zero x l : count x l = 0 ↔ x ∉ l.
Proof. rewrite <-count_pos. lia. Qed.

Lemma NoDup_count l : NoDup l ↔ ∀ x, count x l ≤ 1.
Proof.
  induction l as [|y l IH].
  - split; [simpl; lia | intros _; constructor].
  - rewrite NoDup_cons, IH. split.
    + intros [Hy Hl] x. destruct (decide (y = x)) as [->|Hne].
      * apply count_zero in Hy. rewrite count_cons_eq. lia.
      * rewrite count_cons_ne by done. apply Hl.
    + intros Hc. split.
      * apply count_zero. specialize (Hc y). rewrite count_cons_eq in Hc. lia.
      * intros x. specialize (Hc x). simpl in Hc. lia.
Qed.

Lemma elem_of_duplicate_task_names x l :
  x ∈ duplicate_task_names l ↔ 1 < count x l.
Proof.
  unfold duplicate_task_names.
  rewrite elem_of_list_to_set, list_elem_of_filter.
  split; [by intros [? _]|]. intros Hc. split; [done|].
  apply count_pos. lia.
Qed.

Lemma duplicate_task_names_empty l :
  duplicate_task_names l = ∅ ↔ NoDup l.
Proof.
  rewrite NoDup_count. split.
  - intros He x. destruct (decide (1 < count x l)) as [Hc|]; [|lia].
    apply elem_of_duplicate_task_names in Hc. rewrite He in Hc.
    by apply not_elem_of_empty in Hc.
  - intros Hc. apply leibniz_equiv, elem_of_equiv_empty. intros x Hx.
    apply elem_of_duplicate_task_names in Hx. specialize (Hc x). lia.
Qed.

Section tasks_facts.
Context {Task : Type} `{TaskClass Task}.

Lemma validate_tasks_Ok (v : list Task) :
  validate_tasks v = Ok () ↔ NoDup (task_name <$> v).
Proof.
  rewrite <-duplicate_task_names_empty. unfold validate_tasks.
  destruct (decide _) as [Hpos|Hz].
  - split; [done|]. intros He. rewrite He, size_empty in Hpos. lia.
  - split; [intros _|done].
    apply leibniz_equiv, size_empty_iff. lia.
Qed.

Lemma validate_tasks_Raise (v : list Task) :
  ¬ NoDup (task_name <$> v) →
  validate_tasks v =
    Raise (ValueError (DuplicateTaskNames (duplicate_task_names (task_name <$> v)))).
Proof.
  intros Hdup. unfold validate_tasks.
  destruct (decide _) as [Hpos|Hz]; [done|].
  exfalso. apply Hdup, duplicate_task_names_empty, leibniz_equiv, size_empty_iff.
  lia.
Qed.

Lemma validate_tasks_cases (v : list Task) :
  validate_tasks v = Ok () ∨
  validate_tasks v =
    Raise (ValueError (DuplicateTaskNames (duplicate_task_names (task_name <$> v)))).
Proof. unfold validate_tasks. destruct (decide _); auto. Qed.
End tasks_facts.

Section dag_facts.
Context {Task : Type} `{TaskClass Task}.

Lemma add_tasks_run (new_tasks : list Task) (self : Dag Task) :
  add_tasks new_tasks self =
    (set_tasks (tasks self ++ new_tasks) self,
     validate_tasks (tasks self ++ new_tasks)).
Proof. reflexivity. Qed.

Lemma Dag_init_valid_name_schedule `{Utils} n si da (v : list Task) :
  is_valid_dag_name n = true →
  is_schedule_interval si = true →
  Dag_init (mkDag_kwargs (Some n) (Some si) (Some da) (Some v)) =
    (validate_tasks v;; Ok (mkDag n si da v)).
Proof.
  intros Hn Hsi. unfold Dag_init. cbn [kw_name kw_schedule_interval
    kw_default_args kw_tasks name schedule_interval tasks default from_option].
  unfold validate_dag_name, validate_schedule_interval. by rewrite Hn, Hsi.
Qed.

Lemma Dag_init_bad_schedule `{Utils} (kw : Dag_kwargs Task) si :
  kw_schedule_interval kw = Some si →
  is_schedule_interval si = false →
  is_Ok (Dag_init kw) = false.
Proof.
  intros Hsi Hbad. unfold Dag_init. rewrite Hsi.
  destruct (kw_name kw) as [n|], (kw_default_args kw) as [da|]; try done.
  cbn [name schedule_interval tasks].
  unfold validate_dag_name, validate_schedule_interval. rewrite Hbad.
  by destruct (is_valid_dag_name n).
Qed.
End dag_facts.

(** C3. The tasks validator succeeds exactly when no task name occurs more
    than once.  When it raises, the error carries a set of names, and a
    name is in that set exactly when it occurs more than once in the
    sequence.  Construction runs the validator on the task list it is
    given, [add_tasks] on the combined list. *)
Theorem tasks_validator_reports_all_duplicates
    `{Utils} {Task : Type} `{TaskClass Task} (v : list Task) :
  (validate_tasks v = Ok () ↔ ∀ n, count n (task_name <$> v) ≤ 1) ∧
  (∀ e, validate_tasks v = Raise e →
        ∃ duplicates,
          e = ValueError (DuplicateTaskNames duplicates) ∧
          ∀ n, n ∈ duplicates ↔ 1 < count n (task_name <$> v)) ∧
  (∀ n si da,
     is_valid_dag_name n = true →
     is_schedule_interval si = true →
     Dag_init (mkDag_kwargs (Some n) (Some si) (Some da) (Some v)) =
       (validate_tasks v;; Ok (mkDag n si da v))) ∧
  (∀ (self : Dag Task) new_tasks,
     tasks self ++ new_tasks = v →
     (add_tasks new_tasks self).2 = validate_tasks v).
Proof.
  split; [|split; [|split]].
  - by rewrite validate_tasks_Ok, NoDup_count.
  - intros e He. destruct (validate_tasks_cases v) as [Hv|Hv];
      rewrite Hv in He; [done|]. injection He as <-.
    eexists. split; [reflexivity|]. intros n. apply elem_of_duplicate_task_names.
  - intros n si da. apply Dag_init_valid_name_schedule.
  - intros self new_tasks <-. by rewrite add_tasks_run.
Qed.

Lemma tasks_validator_reports_all_duplicates_witness :
  ∃ duplicates,
    validate_tasks [task_A; task_B; task_A; task_C; task_C; task_A]
      = Raise (ValueError (DuplicateTaskNames duplicates)) ∧
    ("A" ∈ duplicates ∧ "C" ∈ duplicates) ∧
    ∀ n, n ∈ duplicates ↔
         1 < count n (task_name <$> [task_A; task_B; task_A; task_C; task_C; task_A]).
Proof.
  pose proof (validate_tasks_Raise
                [task_A; task_B; task_A; task_C; task_C; task_A]) as Hraise.
  destruct (proj1 (proj2 (tasks_validator_reports_all_duplicates (H:=utils.spec)
              [task_A; task_B; task_A; task_C; task_C; task_A])) _ (Hraise
              ltac:(rewrite NoDup_count; intros Hc; specialize (Hc "A");
                    vm_compute in Hc; lia)))
    as (duplicates & Heq & Hdup).
  exists duplicates. split; [|split; [|exact Hdup]].
  - rewrite Hraise; [by rewrite Heq|].
    rewrite NoDup_count. intros Hc. specialize (Hc "A"). vm_compute in Hc. lia.
  - split; apply Hdup; vm_compute; lia.
Defined.

Lemma duplicate_task_names_ABB :
  duplicate_task_names ["A"; "B"; "B"] = {["B"]}.
Proof.
  apply set_eq. intros x.
  rewrite elem_of_duplicate_task_names, elem_of_singleton. simpl.
  repeat case_decide; subst; split; intros; (lia || done).
Qed.

Lemma validate_tasks_AB : validate_tasks [task_A; task_B] = Ok ().
Proof.
  apply validate_tasks_Ok. rewrite NoDup_count. intros n.
  change (count n ["A"; "B"] ≤ 1). simpl.
  repeat case_decide; subst; (lia || done).
Qed.

Lemma validate_tasks_ABB :
  validate_tasks [task_A; task_B; task_B]
    = Raise (ValueError (DuplicateTaskNames {["B"]})).
Proof.
  rewrite <-duplicate_task_names_ABB.
  change ["A"; "B"; "B"] with (task_name <$> [task_A; task_B; task_B]).
  apply validate_tasks_Raise.
  rewrite NoDup_count. intros Hc. specialize (Hc "B"). vm_compute in Hc. lia.
Qed.

(** C1 as stated fails: on the valid model with tasks [[A, B]], appending
    [[B]] raises and leaves the model with the tasks [[A, B, B]], not with
    [[A, B]]. *)
Lemma add_tasks_duplicate_not_undone :
  validate_tasks (tasks dag_AB) = Ok () ∧
  add_tasks [task_B] dag_AB =
    (set_tasks [task_A; task_B; task_B] dag_AB,
     Raise (ValueError (DuplicateTaskNames {["B"]}))) ∧
  tasks (add_tasks [task_B] dag_AB).1 ≠ tasks dag_AB.
Proof.
  split; [exact validate_tasks_AB|]. split; [|done].
  rewrite add_tasks_run. cbn [tasks dag_AB app].
  by rewrite validate_tasks_ABB.
Qed.

(** C1, amended. [add_tasks] installs the combined sequence and then
    validates it.  When the duplicate-name check fails on a valid model,
    the exception is the validator's [ValueError] with the duplicated
    names, the model keeps the combined sequence (the tasks it had,
    followed by the new ones) and every other field is as before; the
    append is not undone. *)
Theorem add_tasks_keeps_rejected_tasks
    {Task : Type} `{TaskClass Task} (self : Dag Task) new_tasks e :
  validate_tasks (tasks self) = Ok () →
  (add_tasks new_tasks self).2 = Raise e →
  e = ValueError (DuplicateTaskNames
        (duplicate_task_names (task_name <$> tasks self ++ new_tasks))) ∧
  (add_tasks new_tasks self).1 = set_tasks (tasks self ++ new_tasks) self ∧
  tasks (add_tasks new_tasks self).1 = tasks self ++ new_tasks ∧
  tasks (add_tasks new_tasks self).1 ≠ tasks self.
Proof.
  rewrite add_tasks_run. cbn [fst snd set_tasks tasks].
  intros Hvalid Hraise. split; [|split; [done|split; [done|]]].
  - destruct (validate_tasks_cases (tasks self ++ new_tasks)) as [Hv|Hv];
      rewrite Hv in Hraise; [done|]. by injection Hraise as <-.
  - intros Heq. rewrite Heq, Hvalid in Hraise. done.
Qed.

Lemma add_tasks_keeps_rejected_tasks_witness :
  tasks (add_tasks [task_B] dag_AB).1 = [task_A; task_B; task_B].
Proof.
  refine (proj1 (proj2 (proj2 (add_tasks_keeps_rejected_tasks dag_AB [task_B]
            (ValueError (DuplicateTaskNames {["B"]})) _ _)))).
  - exact validate_tasks_AB.
  - rewrite add_tasks_run. exact validate_tasks_ABB.
Defined.

(** ** [from_dict] *)

Lemma dict_update_head k x rest (body : dict) :
  dict_update ((k, x) :: rest) body =
    (k, last_binding k x body)
      :: dict_update rest (filter (fun kv => kv.1 ≠ k) body).
Proof.
  unfold dict_update. revert x rest.
  induction body as [|[k' v] body IH]; intros x rest; [done|].
  cbn [foldl dict_set fst snd last_binding]. rewrite filter_cons. cbn [fst].
  destruct (decide (k' = k)) as [->|Hne].
  - rewrite decide_False by (by intros ?). apply IH.
  - rewrite decide_True by done. cbn [foldl fst snd]. apply IH.
Qed.

Lemma last_binding_elem k x (body : dict) :
  k ∈ dict_keys body → (k, last_binding k x body) ∈ body.
Proof.
  revert x. induction body as [|[k' v] body IH]; intros x Hin.
  - by apply elem_of_nil in Hin.
  - cbn [last_binding]. destruct (decide (k ∈ dict_keys body)) as [Hk|Hk].
    + apply list_elem_of_further. by apply IH.
    + assert (∀ y, last_binding k y body = y) as ->.
      { clear -Hk. induction body as [|[k0 v0] body IH]; intros y; [done|].
        unfold dict_keys in Hk. rewrite fmap_cons, not_elem_of_cons in Hk.
        destruct Hk as [Hne Hk]. cbn [last_binding fst] in *.
        rewrite decide_False by done. by apply IH. }
      unfold dict_keys in Hin. rewrite fmap_cons, elem_of_cons in Hin.
      destruct Hin as [->|Hin]; [|done]. cbn [fst].
      rewrite decide_True by done. apply list_elem_of_here.
Qed.

Lemma last_binding_irrel k x x' (body : dict) :
  k ∈ dict_keys body → last_binding k x body = last_binding k x' body.
Proof.
  revert x x'. induction body as [|[k' v] body IH]; intros x x' Hin.
  - by apply elem_of_nil in Hin.
  - cbn [last_binding]. destruct (decide (k' = k)) as [->|Hne]; [done|].
    apply IH. unfold dict_keys in Hin. rewrite fmap_cons, elem_of_cons in Hin.
    destruct Hin as [Heq|Hin]; [|done]. by cbn in Heq.
Qed.

Lemma dict_get_Some_keys k v (d : dict) : dict_get k d = Some v → k ∈ dict_keys d.
Proof.
  intros Hg. destruct (decide (k ∈ dict_keys d)) as [|Hn]; [done|].
  apply dict_get_None in Hn. congruence.
Qed.

(** What [{"name": name, **body}] holds under ["name"] when the body has
    a ["name"] of its own, and that it does not depend on [name]. *)
Lemma dict_update_name_overridden name name' v (body : dict) :
  dict_wf body →
  dict_get "name" body = Some v →
  dict_get "name" (dict_update [("name", VStr name)] body) = Some v ∧
  dict_update [("name", VStr name)] body = dict_update [("name", VStr name')] body.
Proof.
  intros Hwf Hg. pose proof (dict_get_Some_keys _ _ _ Hg) as Hin.
  rewrite !dict_update_head. split.
  - cbn [dict_get]. rewrite decide_True by done.
    pose proof (last_binding_elem "name" (VStr name) body Hin) as Hl.
    apply (dict_get_elem _ _ _ Hwf) in Hl. congruence.
  - f_equal. f_equal. by apply last_binding_irrel.
Qed.

Lemma except_TypeError_Ok {A} (m : result A) handler a :
  (∀ e, handler e ≠ Ok a) →
  except_TypeError m handler = Ok a ↔ m = Ok a.
Proof.
  intros Hh. destruct m as [a'|[]]; simpl; try done.
  split; [by intros ?%Hh | done].
Qed.

Section from_dict_facts.
Context `{Utils} {Task : Type} `{TaskClass Task} `{Converter Task}.

Lemma Dag_init_inv (kw : Dag_kwargs Task) dag :
  Dag_init kw = Ok dag →
  kw_name kw = Some (name dag) ∧
  kw_schedule_interval kw = Some (schedule_interval dag) ∧
  kw_default_args kw = Some (default_args dag) ∧
  tasks dag = default [] (kw_tasks kw) ∧
  is_valid_dag_name (name dag) = true ∧
  is_schedule_interval (schedule_interval dag) = true ∧
  validate_tasks (tasks dag) = Ok ().
Proof.
  unfold Dag_init.
  destruct (kw_name kw) as [n|], (kw_schedule_interval kw) as [si|],
    (kw_default_args kw) as [da|]; try done.
  cbn [name schedule_interval tasks].
  unfold validate_dag_name, validate_schedule_interval.
  destruct (is_valid_dag_name n) eqn:Hn; [|done].
  destruct (is_schedule_interval si) eqn:Hsi; [|done].
  destruct (validate_tasks _) as [[]|] eqn:Hv; [|done].
  cbn. intros [= <-]. done.
Qed.

Lemma from_dict_single k body :
  from_dict [(k, body)] =
    except_TypeError (flatten k body ≫= structure_Dag)
      (fun e => Raise (DagParseException [(k, body)] (Some e))).
Proof.
  unfold from_dict. cbn [dict_keys fmap list_fmap length fst].
  rewrite decide_False by (intros Hne; by apply Hne).
  cbn [lookup list_lookup dict_get]. by rewrite decide_True.
Qed.

Lemma from_dict_single_Ok k body dag :
  from_dict [(k, VDict body)] = Ok dag ↔
  structure_Dag (dict_update [("name", VStr k)] body) = Ok dag.
Proof. rewrite from_dict_single. by apply except_TypeError_Ok. Qed.

Lemma structure_Dag_name obj v dag :
  dict_get "name" obj = Some v →
  structure_Dag obj = Ok dag →
  name dag = py_str v.
Proof.
  intros Hg. unfold structure_Dag.
  assert (structure_attr structure_str "name" obj = Ok (Some (py_str v))) as ->.
  { unfold structure_attr. by rewrite Hg. }
  cbn [mbind result_bind].
  destruct (structure_attr structure_str _ _) as [si|]; [|done].
  destruct (structure_attr structure_DagDefaultArgs _ _) as [da|]; [|done].
  destruct (structure_attr (structure_list structure_Task) _ _) as [ts|]; [|done].
  cbn [mbind result_bind]. intros Hi%Dag_init_inv.
  destruct Hi as (Hn & _). cbn in Hn. congruence.
Qed.
End from_dict_facts.

(** C4. A mapping whose number of top-level keys is not one is rejected
    with [DagParseException], before anything is structured. *)
Theorem from_dict_requires_single_key
    `{Utils} {Task : Type} `{TaskClass Task} `{Converter Task} (d : dict) :
  length (dict_keys d) ≠ 1 →
  from_dict d = Raise (DagParseException d None).
Proof. intros Hlen. unfold from_dict. by rewrite decide_True. Qed.

Lemma from_dict_requires_single_key_witness :
  from_dict (H:=utils.spec) (Task:=task.Task) two_key_config
    = Raise (DagParseException two_key_config None).
Proof.
  apply (from_dict_requires_single_key (H:=utils.spec)). vm_compute. lia.
Defined.

(** C9. When the body of a single-entry configuration has a ["name"] field
    of its own, the model that [from_dict] builds is named after that
    field, and the top-level key plays no part in it. *)
Theorem from_dict_body_name_overrides
    `{Utils} {Task : Type} `{TaskClass Task} `{Converter Task}
    (k : string) (body : dict) (v : value) (dag : Dag Task) :
  dict_wf body →
  dict_get "name" body = Some v →
  from_dict [(k, VDict body)] = Ok dag →
  name dag = py_str v ∧ ∀ k', from_dict [(k', VDict body)] = Ok dag.
Proof.
  intros Hwf Hg Hfrom. apply from_dict_single_Ok in Hfrom. split.
  - eapply structure_Dag_name; [|exact Hfrom].
    by apply (dict_update_name_overridden k k).
  - intros k'. apply from_dict_single_Ok.
    by rewrite <-(proj2 (dict_update_name_overridden k k' v body Hwf Hg)).
Qed.

Lemma from_dict_body_name_overrides_witness :
  from_dict (H:=utils.spec) renamed_config
    = Ok (mkDag "bqetl_inner" "@daily" default_args_example ([] : list task.Task)) ∧
  from_dict (H:=utils.spec)
    [("anything",
      VDict [("schedule_interval", VStr "@daily");
             ("name", VStr "bqetl_inner");
             ("default_args",
              VDict [("owner", VStr "a@b.com");
                     ("start_date", VStr "2020-01-01")])])]
    = Ok (mkDag "bqetl_inner" "@daily" default_args_example ([] : list task.Task)).
Proof.
  split; [vm_compute; reflexivity|].
  refine (proj2 (from_dict_body_name_overrides (H:=utils.spec) "bqetl_example" _
                   (VStr "bqetl_inner") _ _ _ _) "anything").
  - apply (bool_decide_unpack _). vm_compute. reflexivity.
  - vm_compute. reflexivity.
  - vm_compute. reflexivity.
Defined.

(** Replace every [dict_get] on a literal dict by its value. *)
Ltac eval_dict_get :=
  repeat match goal with
    | |- context [dict_get ?k ?d] =>
        let r := eval vm_compute in (dict_get k d) in
        change (dict_get k d) with r
    end.

(** [from_dict] on the example configuration, for any [utils] predicates
    that accept the example's name, schedule, owner and date and the
    default retry delay. *)
Lemma from_dict_example_accepted
    `{Utils} {Task : Type} `{TaskClass Task} `{Converter Task} :
  is_valid_dag_name "bqetl_example" = true →
  is_schedule_interval "@daily" = true →
  is_email "a@b.com" = true →
  is_date_string "2020-01-01" = true →
  is_timedelta_string "30m" = true →
  ∃ dag : Dag Task,
    from_dict example_config = Ok dag ∧
    name dag = "bqetl_example" ∧
    schedule_interval dag = "@daily" ∧
    tasks dag = [] ∧
    default_args dag = default_args_example.
Proof.
  intros Hn Hsi He Hd Ht.
  exists (mkDag "bqetl_example" "@daily" default_args_example []).
  split; [|done].
  unfold example_config. apply from_dict_single_Ok.
  assert (structure_DagDefaultArgs
            (VDict [("owner", VStr "a@b.com"); ("start_date", VStr "2020-01-01")])
          = Ok default_args_example) as Hda.
  { unfold structure_DagDefaultArgs, structure_attr. eval_dict_get.
    cbn [mbind result_bind fmap result_fmap option_fmap option_map
         structure_str py_str].
    change (DagDefaultArgs_init kwargs_dated = Ok default_args_example).
    apply DagDefaultArgs_init_Ok; try done. simpl. by rewrite Hd. }
  unfold structure_Dag, structure_attr. eval_dict_get.
  cbn [mbind result_bind fmap result_fmap structure_str py_str]. rewrite Hda.
  cbn [mbind result_bind fmap result_fmap structure_str py_str].
  unfold Dag_init. cbn [kw_name kw_schedule_interval kw_default_args kw_tasks
    name schedule_interval tasks default from_option].
  unfold validate_dag_name, validate_schedule_interval. rewrite Hn, Hsi.
  assert (validate_tasks ([] : list Task) = Ok ()) as ->
    by (apply validate_tasks_Ok; constructor).
  reflexivity.
Qed.

(** C5. [from_dict] on the example configuration
    [{"bqetl_example": {"schedule_interval": "@daily",
       "default_args": {"owner": "a@b.com", "start_date": "2020-01-01"}}}]
    succeeds, with the [utils] predicates as the specification describes
    them and for any task class and converter: the model has the name
    ["bqetl_example"], the schedule interval ["@daily"], an empty task
    sequence, and the default arguments of the example with the declared
    defaults for the rest. *)
Theorem from_dict_example {Task : Type} `{TaskClass Task} `{Converter Task} :
  ∃ dag : Dag Task,
    from_dict (H:=utils.spec) example_config = Ok dag ∧
    name dag = "bqetl_example" ∧
    schedule_interval dag = "@daily" ∧
    tasks dag = [] ∧
    default_args dag = default_args_example.
Proof.
  apply (from_dict_example_accepted (H:=utils.spec)); vm_compute; reflexivity.
Qed.


(** ** [to_airflow_dag] *)

Lemma for_each_cons {S A} (body : A → method S unit) x l s :
  for_each body (x :: l) s =
    match body x s with
    | (s', Ok _) => for_each body l s'
    | (s', Raise e) => (s', Raise e)
    end.
Proof. reflexivity. Qed.

(** A loop either runs to its end or stops at the first element whose
    body raises. *)
Lemma for_each_cases {S A} (body : A → method S unit) l s :
  (∃ s', for_each body l s = (s', Ok ())) ∨
  (∃ pre x suf s1 s2 e,
     l = pre ++ x :: suf ∧
     for_each body pre s = (s1, Ok ()) ∧
     body x s1 = (s2, Raise e) ∧
     for_each body l s = (s2, Raise e)).
Proof.
  revert s. induction l as [|x l IH]; intros s.
  - left. by exists s.
  - rewrite for_each_cons. destruct (body x s) as [s1 [[]|e]] eqn:Hx.
    + destruct (IH s1) as [[s' Hl]|(pre & y & suf & s2 & s3 & e & -> & Hp & Hy & Hl)].
      * left. by exists s'.
      * right. exists (x :: pre), y, suf, s2, s3, e.
        rewrite for_each_cons, Hx. done.
    + right. by exists [], x, l, s, s1, e.
Qed.

Section to_airflow_dag_facts.
Context {Task : Type} `{TaskClass Task}.
Context {World Client DagCollection Obj Template : Type}.
Variable with_dependencies :
  Task → Client → DagCollection → World → World * result unit.
Variable default_filters : gmap string Obj.
Variable formatters : list (string * Obj).
Variable callable : Obj → bool.
Variable get_template : gmap string Obj → string → result Template.
Variable render : Template → Dag Task → World → result string.
Variables (client : Client) (dag_collection : DagCollection).

(** The wiring of one task, on the world alone and with the log. *)
Let wire (task : Task) : method World unit :=
  fun w => with_dependencies task client dag_collection w.
Let call_wire (task : Task) : method (outside World Task) unit :=
  call_with_dependencies with_dependencies task client dag_collection.

Lemma call_wire_run task w lg :
  call_wire task (mkOutside w lg) =
    (mkOutside (wire task w).1 (lg ++ [WithDependencies task]), (wire task w).2).
Proof.
  unfold call_wire, call_with_dependencies, wire, record_event. simpl.
  by destruct (with_dependencies _ _ _ _).
Qed.

Lemma for_each_call_wire_Ok l w w' lg :
  for_each wire l w = (w', Ok ()) →
  for_each call_wire l (mkOutside w lg) =
    (mkOutside w' (lg ++ (WithDependencies <$> l)), Ok ()).
Proof.
  revert w lg. induction l as [|t l IH]; intros w lg.
  - intros [= <-]. simpl. by rewrite app_nil_r.
  - rewrite !for_each_cons, call_wire_run.
    destruct (wire t w) as [w1 [[]|e]]; [|done]. simpl. intros Hl.
    rewrite (IH _ _ Hl). by rewrite <-app_assoc.
Qed.

Lemma for_each_call_wire_Raise pre t suf w w1 w2 e lg :
  for_each wire pre w = (w1, Ok ()) →
  wire t w1 = (w2, Raise e) →
  for_each call_wire (pre ++ t :: suf) (mkOutside w lg) =
    (mkOutside w2 (lg ++ (WithDependencies <$> pre ++ [t])), Raise e).
Proof.
  revert w lg. induction pre as [|x pre IH]; intros w lg.
  - intros [= <-] Ht. simpl app. rewrite for_each_cons, call_wire_run, Ht. done.
  - rewrite <-app_comm_cons, !for_each_cons, call_wire_run.
    destruct (wire x w) as [w' [[]|e']]; [|done]. simpl. intros Hp Ht.
    rewrite (IH _ _ Hp Ht). by rewrite <-app_assoc.
Qed.

(** C7. Once the template is loaded, [to_airflow_dag] calls
    [with_dependencies] on the tasks in sequence order.  When every call
    returns, each task has been wired, in order, before the one [render]
    call, which sees the world the wiring left and whose text is the
    result.  When the call on some task raises, the tasks before it have
    been wired, no later task is, [render] is never called and the
    exception is the outcome.  One of the two always is the case. *)
Theorem to_airflow_dag_wires_every_task_before_render
    (self : Dag Task) (w : World) (dag_template : Template) :
  get_template (load_formatters formatters callable default_filters)
               AIRFLOW_DAG_TEMPLATE = Ok dag_template →
  (∀ w',
     for_each (fun task => with_dependencies task client dag_collection)
              (tasks self) w = (w', Ok ()) →
     to_airflow_dag with_dependencies default_filters formatters callable
                    get_template render self client dag_collection
                    (mkOutside w []) =
       (mkOutside w' (GetTemplate AIRFLOW_DAG_TEMPLATE
                        :: (WithDependencies <$> tasks self) ++ [Render]),
        render dag_template self w')) ∧
  (∀ pre task suf w1 w2 e,
     tasks self = pre ++ task :: suf →
     for_each (fun task => with_dependencies task client dag_collection)
              pre w = (w1, Ok ()) →
     with_dependencies task client dag_collection w1 = (w2, Raise e) →
     to_airflow_dag with_dependencies default_filters formatters callable
                    get_template render self client dag_collection
                    (mkOutside w []) =
       (mkOutside w2 (GetTemplate AIRFLOW_DAG_TEMPLATE
                        :: (WithDependencies <$> pre ++ [task])),
        Raise e)) ∧
  ((∃ w',
      for_each (fun task => with_dependencies task client dag_collection)
               (tasks self) w = (w', Ok ())) ∨
   (∃ pre task suf w1 w2 e,
      tasks self = pre ++ task :: suf ∧
      for_each (fun task => with_dependencies task client dag_collection)
               pre w = (w1, Ok ()) ∧
      with_dependencies task client dag_collection w1 = (w2, Raise e))).
Proof.
  intros Htmpl.
  split; [|split].
  - intros w' Hwire. unfold to_airflow_dag.
    unfold mbind at 1, method_bind at 1, call_get_template, record_event.
    simpl. rewrite Htmpl.
    unfold mbind, method_bind.
    fold call_wire.
    rewrite (for_each_call_wire_Ok _ _ _ _ Hwire).
    unfold call_render, record_event. reflexivity.
  - intros pre t suf w1 w2 e Htasks Hpre Ht. unfold to_airflow_dag.
    unfold mbind at 1, method_bind at 1, call_get_template, record_event.
    simpl. rewrite Htmpl, Htasks.
    unfold mbind, method_bind.
    fold call_wire.
    by rewrite (for_each_call_wire_Raise _ _ _ _ _ _ _ _ Hpre Ht).
  - destruct (for_each_cases wire (tasks self) w)
      as [[w' Hok]|(pre & t & suf & w1 & w2 & e & Htasks & Hpre & Ht & _)].
    + left. by exists w'.
    + right. by exists pre, t, suf, w1, w2, e.
Qed.
End to_airflow_dag_facts.

Lemma to_airflow_dag_wires_every_task_before_render_witness :
  wiring.to_airflow_dag dag_AC (mkOutside [] []) =
    (mkOutside ["A"; "C"]
       [GetTemplate "airflow_dag.j2"; WithDependencies task_A;
        WithDependencies task_C; Render],
     Ok "bqetl_example: A,C") ∧
  wiring.to_airflow_dag dag_AB (mkOutside [] []) =
    (mkOutside ["A"]
       [GetTemplate "airflow_dag.j2"; WithDependencies task_A;
        WithDependencies task_B],
     Raise (ForeignError "unresolved dependency")).
Proof.
  split.
  - apply (proj1 (to_airflow_dag_wires_every_task_before_render
                    wiring.with_dependencies ∅ [] (fun _ => true)
                    wiring.get_template wiring.render () ()
                    dag_AC [] "airflow_dag.j2" eq_refl) ["A"; "C"]).
    reflexivity.
  - apply (proj1 (proj2 (to_airflow_dag_wires_every_task_before_render
                    wiring.with_dependencies ∅ [] (fun _ => true)
                    wiring.get_template wiring.render () ()
                    dag_AB [] "airflow_dag.j2" eq_refl))
             [task_A] task_B [] ["A"] ["A"]); reflexivity.
Defined.

(** ** The schedule-interval grammar *)

Lemma skip_digits_app ds rest :
  Forall (fun c => utils.is_digit c = true) ds →
  utils.skip_digits (ds ++ rest) = utils.skip_digits rest.
Proof.
  induction 1 as [|c ds Hc _ IH]; [done|]. simpl. by rewrite Hc.
Qed.

Lemma skip_digits_stop u rest :
  utils.is_digit u = false → utils.skip_digits (u :: rest) = u :: rest.
Proof. intros Hu. simpl. by rewrite Hu. Qed.

Lemma skip_digits_split l :
  ∃ ds, Forall (fun c => utils.is_digit c = true) ds ∧
        l = ds ++ utils.skip_digits l.
Proof.
  induction l as [|c l (ds & Hds & Hl)]; [by exists []|].
  simpl. destruct (utils.is_digit c) eqn:Hc.
  - exists (c :: ds). split; [by constructor|]. simpl. by rewrite <-Hl.
  - by exists [].
Qed.

Lemma component_present u ds rest :
  digits ds → utils.is_digit u = false →
  utils.component u (ds ++ u :: rest) = (rest, true).
Proof.
  intros [Hne Hds] Hu. destruct ds as [|c ds]; [done|].
  apply Forall_cons in Hds as [Hc Hds]. unfold utils.component.
  rewrite <-app_comm_cons, Hc, skip_digits_app, skip_digits_stop by done.
  by rewrite decide_True.
Qed.

Lemma component_other u u' ds rest :
  digits ds → utils.is_digit u' = false → u' ≠ u →
  utils.component u (ds ++ u' :: rest) = (ds ++ u' :: rest, false).
Proof.
  intros [Hne Hds] Hu Hneq. destruct ds as [|c ds]; [done|].
  apply Forall_cons in Hds as [Hc Hds]. unfold utils.component.
  rewrite <-app_comm_cons, Hc, skip_digits_app, skip_digits_stop by done.
  by rewrite decide_False.
Qed.

Lemma component_sound u l rest b :
  utils.component u l = (rest, b) →
  ∃ o, l = part u o ++ rest ∧ b = bool_decide (is_Some o) ∧
       (∀ ds, o = Some ds → digits ds).
Proof.
  unfold utils.component. destruct l as [|c l].
  { intros [= <- <-]. by exists None. }
  destruct (utils.is_digit c) eqn:Hc; [|intros [= <- <-]; by exists None].
  destruct (skip_digits_split l) as (ds & Hds & Hl).
  destruct (utils.skip_digits l) as [|u' rest'] eqn:Hs;
    [intros [= <- <-]; by exists None|].
  destruct (decide (u' = u)) as [->|]; [|intros [= <- <-]; by exists None].
  intros [= <- <-]. exists (Some (c :: ds)). split; [|split].
  - simpl. rewrite Hl at 1. by rewrite <-app_assoc.
  - done.
  - intros ? [= <-]. split; [done|]. by constructor.
Qed.

Lemma is_timedelta_string_duration_literal s :
  utils.is_timedelta_string s = true ↔ duration_literal s.
Proof.
  unfold utils.is_timedelta_string, duration_literal.
  generalize (String.list_ascii_of_string s). intros l. split.
  - destruct (utils.component "d" l) as [l1 d] eqn:Hd.
    destruct (utils.component "h" l1) as [l2 h] eqn:Hh.
    destruct (utils.component "m" l2) as [l3 m] eqn:Hm.
    intros [Hend Hany]%andb_true_iff. apply bool_decide_eq_true in Hend as ->.
    apply component_sound in Hd as (od & -> & -> & Hod).
    apply component_sound in Hh as (oh & -> & -> & Hoh).
    apply component_sound in Hm as (om & -> & -> & Hom).
    exists od, oh, om. rewrite app_nil_r. split; [done|]. split.
    + rewrite !orb_true_iff, !bool_decide_eq_true in Hany. tauto.
    + intros ds [?|[?|?]]; auto.
  - intros (d & h & m & -> & Hany & Hdigits).
    assert (∀ ds, d = Some ds → digits ds) as Hd by auto.
    assert (∀ ds, h = Some ds → digits ds) as Hh by auto.
    assert (∀ ds, m = Some ds → digits ds) as Hm by auto.
    clear Hdigits.
    destruct d as [ds|], h as [hs|], m as [ms|]; simpl part;
      try specialize (Hd _ eq_refl); try specialize (Hh _ eq_refl);
      try specialize (Hm _ eq_refl);
      rewrite <-?app_assoc, ?app_nil_r; simpl app;
      repeat first
        [ rewrite component_present by done
        | rewrite component_other by done
        | progress change (utils.component ?u []) with (@nil ascii, false) ];
      try done.
    destruct Hany as [[? [=]]|[[? [=]]|[? [=]]]].
Qed.

(** C8. With [utils.is_schedule_interval] modelled from the specification,
    the schedule-interval validator accepts exactly the named presets, the
    strings of five white-space-separated fields and the duration literals
    (days, hours, minutes: each optional, one at least, in this order, none
    repeated).  Each preset, the cron string ["0 1 * * *"] and ["1d4h45m"]
    pass; ["45m1d"], ["2d2d"] and the empty string do not, and no [Dag] can
    be constructed with one of them as its schedule interval. *)
Theorem schedule_interval_acceptance :
  (∀ s, validate_schedule_interval (H:=utils.spec) s = Ok () ↔
        s ∈ utils.presets ∨ length (String.words s) = 5 ∨ duration_literal s) ∧
  Forall (fun s => validate_schedule_interval (H:=utils.spec) s = Ok ())
         ["@once"; "@hourly"; "@daily"; "@weekly"; "@monthly"; "@yearly";
          "0 1 * * *"; "1d4h45m"] ∧
  Forall (fun s =>
            validate_schedule_interval (H:=utils.spec) s
              = Raise (ValueError (InvalidScheduleInterval s)) ∧
            ∀ (Task : Type) (T : TaskClass Task) (kw : Dag_kwargs Task),
              kw_schedule_interval kw = Some s →
              is_Ok (Dag_init (H:=utils.spec) kw) = false)
         ["45m1d"; "2d2d"; ""].
Proof.
  split; [|split].
  - intros s. unfold validate_schedule_interval. rewrite require_Ok.
    change (is_schedule_interval s) with (utils.is_schedule_interval s).
    unfold utils.is_schedule_interval, utils.is_cron.
    rewrite !orb_true_iff, !bool_decide_eq_true, is_timedelta_string_duration_literal.
    tauto.
  - repeat constructor.
  - repeat constructor; intros Task T kw Hsi;
      by apply (Dag_init_bad_schedule (H0:=utils.spec) kw _ Hsi).
Qed.

Lemma schedule_interval_acceptance_witness :
  is_Ok (Dag_init (H:=utils.spec)
           (mkDag_kwargs (Some "bqetl_example") (Some "45m1d")
                         (Some default_args_example)
                         (Some [task_A; task_B]))) = false.
Proof.
  pose proof (proj2 (proj2 schedule_interval_acceptance)) as Hbad.
  apply Forall_cons in Hbad as [[_ Hbad] _].
  apply (Hbad task.Task _). reflexivity.
Defined.

(** * Further properties of the module *)

(** ** Worked instances, continued *)

(** [DagDefaultArgs(owner="nobody", start_date="01/01/2020",
    email=["a@b.com", "bad"], retry_delay="soon")]: every validated field is
    invalid. *)
Definition kwargs_all_bad : DagDefaultArgs_kwargs :=
  mkDagDefaultArgs_kwargs (Some "nobody") (Some (Some "01/01/2020"))
                          (Some ["a@b.com"; "bad"]) None (Some "soon")
                          None None None.

(** [Dag(name="example", schedule_interval="never",
    default_args=..., tasks=[A, A])]: every validated field is invalid. *)
Definition dag_kwargs_all_bad : Dag_kwargs task.Task :=
  mkDag_kwargs (Some "example") (Some "never") (Some default_args_example)
               (Some [task_A; task_A]).

(** [Dag(schedule_interval="never")] *)
Definition dag_kwargs_only_schedule : Dag_kwargs task.Task :=
  mkDag_kwargs None (Some "never") None None.

(** ** The constructors *)

(** X1. [DagDefaultArgs(...)] succeeds exactly when [owner] and
    [start_date] are passed, the owner and every entry of [email] are email
    addresses, [start_date] is [None] or a date string and [retry_delay] is
    a timedelta string; the instance then holds the arguments, with the
    defaults for those left out. *)
Theorem DagDefaultArgs_init_succeeds_iff `{Utils} kw self :
  DagDefaultArgs_init kw = Ok self ↔
  ∃ o sd,
    kw_owner kw = Some o ∧ kw_start_date kw = Some sd ∧
    is_email o = true ∧
    (∀ s, sd = Some s → is_date_string s = true) ∧
    Forall (fun e => is_email e = true) (default [] (kw_email kw)) ∧
    is_timedelta_string (default "30m" (kw_retry_delay kw)) = true ∧
    self = DagDefaultArgs_assigned o sd kw.
Proof.
  split.
  - intros Hinit.
    apply DagDefaultArgs_init_inv in Hinit as (o & sd & Ho & Hsd & -> & He & Hd & Hes & Ht).
    exists o, sd. repeat split; try done.
    + intros s ->. simpl in Hd. by apply require_Ok in Hd.
    + apply Forall_forall. intros e He'.
      cbn [email DagDefaultArgs_assigned] in Hes.
      rewrite forallb_forall in Hes. apply Hes. by apply list_elem_of_In.
  - intros (o & sd & Ho & Hsd & He & Hd & Hes & Ht & ->).
    apply DagDefaultArgs_init_Ok; try done.
    + destruct sd as [s|]; [|done]. simpl. by rewrite (Hd s eq_refl).
    + rewrite forallb_forall. intros e He'%list_elem_of_In.
      by apply (proj1 (Forall_forall _ _) Hes).
Qed.

(** X2. The validators of [DagDefaultArgs] run in attribute order and the
    first failure is the one reported: a bad owner whatever the other
    fields are, then a bad date, then the whole [email] list when one of
    its entries is bad, then a bad [retry_delay]. *)
Theorem DagDefaultArgs_init_first_error `{Utils} kw o sd :
  kw_owner kw = Some o →
  kw_start_date kw = Some sd →
  (is_email o = false →
   DagDefaultArgs_init kw = Raise (ValueError (InvalidOwner o))) ∧
  (is_email o = true →
   ∀ s, sd = Some s → is_date_string s = false →
        DagDefaultArgs_init kw = Raise (ValueError (InvalidDate "start_date" s))) ∧
  (is_email o = true →
   validate_start_date sd = Ok () →
   forallb is_email (default [] (kw_email kw)) = false →
   DagDefaultArgs_init kw
     = Raise (ValueError (InvalidEmail (default [] (kw_email kw))))) ∧
  (is_email o = true →
   validate_start_date sd = Ok () →
   forallb is_email (default [] (kw_email kw)) = true →
   is_timedelta_string (default "30m" (kw_retry_delay kw)) = false →
   DagDefaultArgs_init kw
     = Raise (ValueError (InvalidTimedelta "retry_delay"
                            (default "30m" (kw_retry_delay kw))))).
Proof.
  intros Ho Hsd. unfold DagDefaultArgs_init. rewrite Ho, Hsd.
  cbn [owner start_date email retry_delay].
  unfold validate_owner, validate_email, validate_retry_delay.
  split; [|split; [|split]].
  - by intros ->.
  - intros -> s -> Hd. simpl. by rewrite Hd.
  - intros -> -> Hes. simpl. by rewrite Hes.
  - intros -> -> Hes Ht. simpl. by rewrite Hes, Ht.
Qed.

Lemma DagDefaultArgs_init_first_error_witness :
  DagDefaultArgs_init (H:=utils.spec) kwargs_all_bad
    = Raise (ValueError (InvalidOwner "nobody")).
Proof.
  apply (proj1 (DagDefaultArgs_init_first_error (H:=utils.spec) kwargs_all_bad
                  "nobody" (Some "01/01/2020") eq_refl eq_refl)).
  vm_compute. reflexivity.
Defined.

Lemma missing_cons n (b : bool) required :
  missing ((n, b) :: required) = if b then missing required else n :: missing required.
Proof.
  unfold missing. rewrite filter_cons. cbn [snd].
  destruct b; case_decide; done.
Qed.

(** X3. A call of [Dag(...)] that leaves out a required argument raises
    [TypeError] before any validator runs: the error names exactly the
    arguments among [name], [schedule_interval] and [default_args] that are
    missing, whatever the values of the others. *)
Theorem Dag_init_missing_arguments
    `{Utils} {Task : Type} `{TaskClass Task} (kw : Dag_kwargs Task) :
  kw_name kw = None ∨ kw_schedule_interval kw = None ∨ kw_default_args kw = None →
  ∃ names,
    Dag_init kw = Raise (TypeError (MissingArguments names)) ∧
    names ≠ [] ∧
    ("name" ∈ names ↔ kw_name kw = None) ∧
    ("schedule_interval" ∈ names ↔ kw_schedule_interval kw = None) ∧
    ("default_args" ∈ names ↔ kw_default_args kw = None) ∧
    names ⊆ ["name"; "schedule_interval"; "default_args"].
Proof.
  intros Hmiss. unfold Dag_init.
  destruct (kw_name kw) as [n|], (kw_schedule_interval kw) as [si|],
    (kw_default_args kw) as [da|];
    try (exfalso; destruct Hmiss as [?|[?|?]]; discriminate);
    (eexists; split; [reflexivity|]);
    rewrite !missing_cons; change (missing []) with (@nil string); cbn;
    (split; [done|]);
    rewrite ?elem_of_cons, ?elem_of_nil;
    (split; [|split; [|split]]);
    try (split; [intros ?; intuition discriminate | intros ?; by auto]);
    try (split; [by intros ? | intros ?; by auto]);
    try (intros x; rewrite ?elem_of_cons, ?elem_of_nil; tauto).
Qed.

Lemma Dag_init_missing_arguments_witness :
  Dag_init (H:=utils.spec) dag_kwargs_only_schedule
    = Raise (TypeError (MissingArguments ["name"; "default_args"])).
Proof.
  destruct (Dag_init_missing_arguments (H:=utils.spec) dag_kwargs_only_schedule)
    as (names & Hraise & _); [by left|].
  rewrite Hraise. vm_compute in Hraise. congruence.
Defined.

(** X4. [Dag(...)] succeeds exactly when [name], [schedule_interval] and
    [default_args] are passed, the name is a valid DAG name, the schedule
    interval is valid and no two tasks have the same name; the instance
    then holds the arguments, with no tasks when none were passed. *)
Theorem Dag_init_succeeds_iff
    `{Utils} {Task : Type} `{TaskClass Task} (kw : Dag_kwargs Task) dag :
  Dag_init kw = Ok dag ↔
  ∃ n si da,
    kw_name kw = Some n ∧ kw_schedule_interval kw = Some si ∧
    kw_default_args kw = Some da ∧
    is_valid_dag_name n = true ∧
    is_schedule_interval si = true ∧
    NoDup (task_name <$> default [] (kw_tasks kw)) ∧
    dag = mkDag n si da (default [] (kw_tasks kw)).
Proof.
  split.
  - intros (Hn & Hsi & Hda & Hts & Hvn & Hvsi & Hvt)%Dag_init_inv.
    exists (name dag), (schedule_interval dag), (default_args dag).
    rewrite <-Hts. apply validate_tasks_Ok in Hvt. by destruct dag.
  - intros (n & si & da & Hn & Hsi & Hda & Hvn & Hvsi & Hnd & ->).
    unfold Dag_init. rewrite Hn, Hsi, Hda.
    cbn [name schedule_interval tasks].
    unfold validate_dag_name, validate_schedule_interval. rewrite Hvn, Hvsi.
    apply validate_tasks_Ok in Hnd. simpl. by rewrite Hnd.
Qed.

(** X5. The validators of [Dag] run in attribute order and the first
    failure is the one reported: a bad name whatever the schedule and the
    tasks are, then a bad schedule interval even when task names repeat,
    and the repeated task names only when name and schedule are valid. *)
Theorem Dag_init_first_error
    `{Utils} {Task : Type} `{TaskClass Task} (kw : Dag_kwargs Task) n si da :
  kw_name kw = Some n →
  kw_schedule_interval kw = Some si →
  kw_default_args kw = Some da →
  (is_valid_dag_name n = false →
   Dag_init kw = Raise (ValueError (InvalidDagName n))) ∧
  (is_valid_dag_name n = true →
   is_schedule_interval si = false →
   Dag_init kw = Raise (ValueError (InvalidScheduleInterval si))) ∧
  (is_valid_dag_name n = true →
   is_schedule_interval si = true →
   ¬ NoDup (task_name <$> default [] (kw_tasks kw)) →
   Dag_init kw =
     Raise (ValueError (DuplicateTaskNames
       (duplicate_task_names (task_name <$> default [] (kw_tasks kw)))))).
Proof.
  intros Hn Hsi Hda. unfold Dag_init. rewrite Hn, Hsi, Hda.
  cbn [name schedule_interval tasks].
  unfold validate_dag_name, validate_schedule_interval.
  split; [|split].
  - by intros ->.
  - by intros -> ->.
  - intros -> -> Hdup. simpl. by rewrite (validate_tasks_Raise _ Hdup).
Qed.

Lemma Dag_init_first_error_witness :
  Dag_init (H:=utils.spec) dag_kwargs_all_bad
    = Raise (ValueError (InvalidDagName "example")).
Proof.
  apply (proj1 (Dag_init_first_error (H:=utils.spec) dag_kwargs_all_bad
                  "example" "never" default_args_example
                  eq_refl eq_refl eq_refl)).
  vm_compute. reflexivity.
Defined.

(** ** [add_tasks] and the tasks validator *)

Lemma count_app x l k : count x (l ++ k) = count x l + count x k.
Proof. induction l as [|y l IH]; simpl; [done|]. rewrite IH. lia. Qed.

Lemma count_Permutation x l k : l ≡ₚ k → count x l = count x k.
Proof.
  induction 1 as [|y l k _ IH|y z l|l k m _ IH1 _ IH2]; simpl; try lia.
Qed.

Lemma duplicate_task_names_app_subseteq l k :
  duplicate_task_names l ⊆ duplicate_task_names (l ++ k).
Proof.
  intros x. rewrite !elem_of_duplicate_task_names, count_app. lia.
Qed.

Section add_tasks_facts.
Context {Task : Type} `{TaskClass Task}.

Lemma validate_tasks_app_Raise (l k : list Task) :
  validate_tasks l ≠ Ok () → validate_tasks (l ++ k) ≠ Ok ().
Proof.
  rewrite !validate_tasks_Ok, fmap_app, NoDup_app. tauto.
Qed.
End add_tasks_facts.

(** X6. [add_tasks] succeeds exactly when the names of the tasks the model
    has and of the new tasks are all different: no name repeats among the
    old ones, none among the new ones, and no new task has the name of an
    old one.  Either way the model afterwards has the old tasks followed by
    the new ones, in their order, and its name, schedule interval and
    default arguments are those it had. *)
Theorem add_tasks_succeeds_iff
    {Task : Type} `{TaskClass Task} (self : Dag Task) (new_tasks : list Task) :
  ((add_tasks new_tasks self).2 = Ok () ↔
   NoDup (task_name <$> tasks self) ∧
   NoDup (task_name <$> new_tasks) ∧
   ∀ t, t ∈ new_tasks → task_name t ∉ task_name <$> tasks self) ∧
  tasks (add_tasks new_tasks self).1 = tasks self ++ new_tasks ∧
  name (add_tasks new_tasks self).1 = name self ∧
  schedule_interval (add_tasks new_tasks self).1 = schedule_interval self ∧
  default_args (add_tasks new_tasks self).1 = default_args self.
Proof.
  rewrite add_tasks_run. cbn [fst snd]. split; [|done].
  rewrite validate_tasks_Ok, fmap_app, NoDup_app.
  split.
  - intros (Hold & Hdisj & Hnew). split; [done|]. split; [done|].
    intros t Ht Hin. apply (Hdisj _ Hin). apply list_elem_of_fmap. by exists t.
  - intros (Hold & Hnew & Hdisj). split; [done|]. split; [|done].
    intros x Hin (t & -> & Ht)%list_elem_of_fmap. by apply (Hdisj t).
Qed.

(** X7. Two calls of [add_tasks] in a row leave the model and the outcome
    of the second call as one call with the concatenated list does, whether
    or not the first call raised; and when the one call succeeds, so does
    the sequence of the two. *)
Theorem add_tasks_twice
    {Task : Type} `{TaskClass Task} (self : Dag Task) (a b : list Task) :
  add_tasks b (add_tasks a self).1 = add_tasks (a ++ b) self ∧
  ((add_tasks (a ++ b) self).2 = Ok () →
   (add_tasks a;; add_tasks b) self = add_tasks (a ++ b) self).
Proof.
  assert (add_tasks b (add_tasks a self).1 = add_tasks (a ++ b) self) as Heq.
  { rewrite !add_tasks_run. cbn [fst tasks set_tasks]. rewrite <-app_assoc.
    by destruct self. }
  split; [done|]. intros Hok.
  unfold mbind, method_bind. destruct (add_tasks a self) as [s [[]|e]] eqn:Ha.
  - exact Heq.
  - exfalso. rewrite add_tasks_run in Ha, Hok. cbn [snd] in Hok.
    injection Ha as _ Ha. rewrite app_assoc in Hok.
    apply (validate_tasks_app_Raise (tasks self ++ a) b); [|done]. by rewrite Ha.
Qed.

Lemma add_tasks_twice_witness :
  (add_tasks [task_A];; add_tasks [task_B])
    (mkDag "bqetl_example" "@daily" default_args_example []) = (dag_AB, Ok ()).
Proof.
  rewrite (proj2 (add_tasks_twice
                    (mkDag "bqetl_example" "@daily" default_args_example [])
                    [task_A] [task_B])).
  - rewrite add_tasks_run. cbn [tasks app]. by rewrite validate_tasks_AB.
  - rewrite add_tasks_run. cbn [tasks app snd]. exact validate_tasks_AB.
Defined.

(** X8. A failed [add_tasks] is not undone, so it poisons the model: after
    a call that raised, every further call raises as well, whatever tasks
    it is given, and reports at least the names the failed call reported. *)
Theorem add_tasks_failure_sticks
    {Task : Type} `{TaskClass Task} (self : Dag Task) (a b : list Task) D :
  (add_tasks a self).2 = Raise (ValueError (DuplicateTaskNames D)) →
  ∃ D', (add_tasks b (add_tasks a self).1).2
          = Raise (ValueError (DuplicateTaskNames D')) ∧
        D ⊆ D'.
Proof.
  rewrite !add_tasks_run. cbn [fst snd tasks set_tasks]. intros Ha.
  destruct (validate_tasks_cases (tasks self ++ a)) as [Hv|Hv];
    rewrite Hv in Ha; [done|]. injection Ha as <-.
  destruct (validate_tasks_cases ((tasks self ++ a) ++ b)) as [Hv'|Hv'].
  - exfalso. apply (validate_tasks_app_Raise (tasks self ++ a) b); [|done].
    by rewrite Hv.
  - eexists. split; [exact Hv'|]. rewrite (fmap_app _ (tasks self ++ a) b).
    apply duplicate_task_names_app_subseteq.
Qed.

Lemma add_tasks_failure_sticks_witness :
  ∃ D', (add_tasks [task_C] (add_tasks [task_B] dag_AB).1).2
          = Raise (ValueError (DuplicateTaskNames D')) ∧
        {["B"]} ⊆ D'.
Proof.
  apply (add_tasks_failure_sticks dag_AB [task_B] [task_C]).
  rewrite add_tasks_run. exact validate_tasks_ABB.
Defined.

(** X9. Adding the same tasks a second time always raises: each of their
    names is among the duplicates reported. *)
Theorem add_tasks_again_raises
    {Task : Type} `{TaskClass Task} (self : Dag Task) (new_tasks : list Task) :
  new_tasks ≠ [] →
  ∃ D, (add_tasks new_tasks (add_tasks new_tasks self).1).2
         = Raise (ValueError (DuplicateTaskNames D)) ∧
       ∀ t, t ∈ new_tasks → task_name t ∈ D.
Proof.
  intros Hne. rewrite !add_tasks_run. cbn [fst snd tasks set_tasks].
  assert (∀ t, t ∈ new_tasks →
            1 < count (task_name t)
                  (task_name <$> (tasks self ++ new_tasks) ++ new_tasks)) as Hcount.
  { intros t Ht. rewrite !fmap_app, !count_app.
    assert (0 < count (task_name t) (task_name <$> new_tasks)); [|lia].
    apply count_pos, list_elem_of_fmap. by exists t. }
  eexists. split.
  - apply validate_tasks_Raise. rewrite NoDup_count. intros Hc.
    destruct new_tasks as [|t ?]; [done|].
    specialize (Hcount t (list_elem_of_here _ _)). specialize (Hc (task_name t)). lia.
  - intros t Ht. apply elem_of_duplicate_task_names. by apply Hcount.
Qed.

Lemma add_tasks_again_raises_witness :
  ∃ D, (add_tasks [task_C] (add_tasks [task_C] dag_AB).1).2
         = Raise (ValueError (DuplicateTaskNames D)) ∧
       ∀ t, t ∈ [task_C] → task_name t ∈ D.
Proof. by apply (add_tasks_again_raises dag_AB [task_C]). Defined.

(** X10. The tasks validator does not depend on the order of the tasks:
    two sequences with the same tasks in a different order both pass, or
    both raise with the same set of duplicated names. *)
Theorem validate_tasks_Permutation
    {Task : Type} `{TaskClass Task} (v v' : list Task) :
  v ≡ₚ v' → validate_tasks v = validate_tasks v'.
Proof.
  intros Hperm.
  assert (duplicate_task_names (task_name <$> v)
          = duplicate_task_names (task_name <$> v')) as Hdup.
  { apply set_eq. intros x. rewrite !elem_of_duplicate_task_names.
    by rewrite (count_Permutation x _ _ (fmap_Permutation task_name _ _ Hperm)). }
  unfold validate_tasks. by rewrite Hdup.
Qed.

Lemma validate_tasks_Permutation_witness :
  validate_tasks [task_B; task_A; task_B]
    = Raise (ValueError (DuplicateTaskNames {["B"]})).
Proof.
  rewrite (validate_tasks_Permutation [task_B; task_A; task_B]
             [task_A; task_B; task_B]).
  - exact validate_tasks_ABB.
  - apply Permutation_swap.
Defined.

(** ** [from_dict], continued *)

Lemma dict_set_keys k v (d : dict) :
  dict_keys (dict_set k v d) =
    if decide (k ∈ dict_keys d) then dict_keys d else dict_keys d ++ [k].
Proof.
  unfold dict_keys. induction d as [|[k' v'] d IH].
  - destruct (decide (k ∈ [].*1)) as [Hin|]; [|done].
    by apply elem_of_nil in Hin.
  - cbn [dict_set]. rewrite fmap_cons. cbn [fst].
    destruct (decide (k = k')) as [->|Hne].
    + rewrite fmap_cons. cbn [fst].
      rewrite decide_True; [done|]. apply list_elem_of_here.
    + rewrite fmap_cons, IH. cbn [fst].
      destruct (decide (k ∈ d.*1)) as [Hin|Hin],
        (decide (k ∈ k' :: d.*1)) as [Hin'|Hin']; try done.
      * exfalso. by apply Hin', list_elem_of_further.
      * exfalso. apply elem_of_cons in Hin' as [?|?]; done.
Qed.

Lemma dict_set_wf k v (d : dict) : dict_wf d → dict_wf (dict_set k v d).
Proof.
  unfold dict_wf. rewrite dict_set_keys. intros Hwf.
  destruct (decide _) as [|Hin]; [done|].
  apply NoDup_app. split; [done|]. split; [|apply NoDup_singleton].
  intros x Hx ->%list_elem_of_singleton. done.
Qed.

(** Lookup after [d.update(other)]: the value of [other] when it has the
    key, the value of [d] otherwise. *)
Lemma dict_get_update k (d other : dict) :
  dict_wf other →
  dict_get k (dict_update d other) =
    match dict_get k other with
    | Some v => Some v
    | None => dict_get k d
    end.
Proof.
  unfold dict_update, dict_wf, dict_keys. revert d.
  induction other as [|[k0 v0] other IH]; intros d Hwf; [done|].
  rewrite fmap_cons in Hwf. apply NoDup_cons in Hwf as [Hk0 Hwf].
  cbn [fst] in Hk0. cbn [foldl fst snd dict_get]. rewrite IH by done.
  destruct (decide (k = k0)) as [->|Hne].
  - apply dict_get_None in Hk0. rewrite Hk0. apply dict_get_set_eq.
  - by rewrite dict_get_set_ne.
Qed.

Section from_dict_more.
Context `{Utils} {Task : Type} `{TaskClass Task} `{Converter Task}.

Lemma structure_attr_str k (obj : dict) :
  structure_attr structure_str k obj = Ok (py_str <$> dict_get k obj).
Proof. unfold structure_attr. by destruct (dict_get k obj). Qed.

Lemma structure_attr_None {A} (f : value → result A) k (obj : dict) :
  dict_get k obj = None → structure_attr f k obj = Ok None.
Proof. unfold structure_attr. by intros ->. Qed.

Lemma structure_attr_Some {A} (f : value → result A) k (obj : dict) v :
  dict_get k obj = Some v → structure_attr f k obj = Some <$> f v.
Proof. unfold structure_attr. by intros ->. Qed.

(** [structure_Dag] reads its argument through the four attribute names
    only. *)
Lemma structure_Dag_ext (obj obj' : dict) :
  (∀ k, k ∈ ["name"; "schedule_interval"; "default_args"; "tasks"] →
        dict_get k obj = dict_get k obj') →
  structure_Dag obj = structure_Dag obj'.
Proof.
  intros Hext. unfold structure_Dag, structure_attr.
  rewrite !Hext; [done|..]; repeat constructor.
Qed.

Lemma from_dict_Ok_single (d : dict) dag :
  from_dict d = Ok dag →
  ∃ k body, d = [(k, VDict body)] ∧
            structure_Dag (dict_update [("name", VStr k)] body) = Ok dag.
Proof.
  intros Hfrom. assert (∃ k v, d = [(k, v)]) as (k & v & ->).
  { unfold from_dict in Hfrom. destruct (decide _) as [|Hlen]; [done|].
    destruct d as [|[k v] [|? ?]];
      [exfalso; apply Hlen; simpl; lia | | exfalso; apply Hlen; simpl; lia].
    by exists k, v. }
  rewrite from_dict_single in Hfrom. apply except_TypeError_Ok in Hfrom; [|done].
  destruct v; try done. by eexists _, _.
Qed.

Lemma structure_DagDefaultArgs_inv v da :
  structure_DagDefaultArgs v = Ok da →
  ∃ s, start_date da = Some s ∧ is_date_string s = true ∧
       is_email (owner da) = true ∧
       forallb is_email (email da) = true ∧
       is_timedelta_string (retry_delay da) = true.
Proof.
  destruct v as [| | | | |obj]; try done. unfold structure_DagDefaultArgs.
  rewrite !structure_attr_str. cbn [mbind result_bind].
  destruct (structure_attr (structure_list structure_str) _ _) as [em|]; [|done].
  destruct (structure_attr structure_bool "depends_on_past" _) as [dp|]; [|done].
  destruct (structure_attr structure_bool "email_on_failure" _) as [ef|]; [|done].
  destruct (structure_attr structure_bool "email_on_retry" _) as [er|]; [|done].
  destruct (structure_attr structure_int _ _) as [rt|]; [|done].
  cbn [mbind result_bind].
  intros (o & sd & Ho & Hsd & -> & He & Hd & Hes & Ht)%DagDefaultArgs_init_inv.
  cbn [kw_start_date] in Hsd.
  destruct (dict_get "start_date" obj) as [sv|]; [|done].
  injection Hsd as <-. exists (py_str sv). simpl in Hd. apply require_Ok in Hd.
  done.
Qed.
End from_dict_more.

(** [{"bqetl_example": "@daily"}]: the body is not a mapping. *)
Definition flat_config : dict := [("bqetl_example", VStr "@daily")].

(** [{"bqetl_example": {"schedule_interval": "@daily"}}]: no
    [default_args]. *)
Definition config_without_default_args : dict :=
  [("bqetl_example", VDict [("schedule_interval", VStr "@daily")])].

(** [{"example": {"schedule_interval": "never",
      "default_args": {"owner": "nobody", "start_date": "2020-01-01"}}}]:
    a bad name, a bad schedule and a bad owner. *)
Definition config_all_bad : dict :=
  [("example",
    VDict [("schedule_interval", VStr "never");
           ("default_args",
            VDict [("owner", VStr "nobody");
                   ("start_date", VStr "2020-01-01")])])].

(** The body of [example_config]. *)
Definition example_body : dict :=
  [("schedule_interval", VStr "@daily");
   ("default_args",
    VDict [("owner", VStr "a@b.com"); ("start_date", VStr "2020-01-01")])].

Definition dag_example : Dag task.Task :=
  mkDag "bqetl_example" "@daily" default_args_example [].

(** X11. [from_dict] never raises [TypeError]: a [TypeError] raised while
    the mapping is re-shaped and structured, a body that is not a mapping
    included, comes out as a [DagParseException] that carries the mapping
    [from_dict] was given and the [TypeError] as its cause. *)
Theorem from_dict_wraps_TypeError
    `{Utils} {Task : Type} `{TaskClass Task} `{Converter Task} (d : dict) :
  match from_dict d with
  | Raise (TypeError _) => False
  | _ => True
  end ∧
  ∀ k body e,
    d = [(k, body)] →
    flatten k body ≫= structure_Dag = Raise (TypeError e) →
    from_dict d = Raise (DagParseException d (Some e)).
Proof.
  split.
  - unfold from_dict. destruct (decide _); [done|].
    destruct (dict_keys d !! 0%nat) as [k|]; [|done].
    destruct (dict_get k d) as [body|]; [|done].
    by destruct (flatten k body ≫= structure_Dag) as [|[]].
  - intros k body e -> He. by rewrite from_dict_single, He.
Qed.

Lemma from_dict_wraps_TypeError_witness :
  from_dict (H:=utils.spec) (Task:=task.Task) flat_config
    = Raise (DagParseException flat_config (Some (NotAMapping (VStr "@daily")))).
Proof.
  by apply (proj2 (from_dict_wraps_TypeError (H:=utils.spec) flat_config)
              "bqetl_example" (VStr "@daily")).
Defined.

(** X12. Whatever [from_dict] returns is fully validated: the mapping had
    a single entry whose body is a mapping, the name is a valid DAG name,
    the schedule interval is valid, the task names are all different, the
    owner and every [email] entry are email addresses, [retry_delay] is a
    timedelta string, and [start_date] is a date string, never [None]. *)
Theorem from_dict_Ok_validated
    `{Utils} {Task : Type} `{TaskClass Task} `{Converter Task}
    (d : dict) (dag : Dag Task) :
  from_dict d = Ok dag →
  (∃ k body, d = [(k, VDict body)]) ∧
  is_valid_dag_name (name dag) = true ∧
  is_schedule_interval (schedule_interval dag) = true ∧
  NoDup (task_name <$> tasks dag) ∧
  is_email (owner (default_args dag)) = true ∧
  Forall (fun e => is_email e = true) (email (default_args dag)) ∧
  is_timedelta_string (retry_delay (default_args dag)) = true ∧
  ∃ s, start_date (default_args dag) = Some s ∧ is_date_string s = true.
Proof.
  intros (k & body & -> & Hs)%from_dict_Ok_single.
  split; [by eexists _, _|].
  unfold structure_Dag in Hs. rewrite !structure_attr_str in Hs.
  cbn [mbind result_bind] in Hs.
  destruct (structure_attr structure_DagDefaultArgs _ _) as [da|] eqn:Hda; [|done].
  destruct (structure_attr (structure_list structure_Task) _ _) as [ts|]; [|done].
  cbn [mbind result_bind] in Hs.
  apply Dag_init_inv in Hs as (_ & _ & Hkda & _ & Hn & Hsi & Hts).
  cbn [kw_default_args] in Hkda. subst da.
  unfold structure_attr in Hda.
  destruct (dict_get "default_args" _) as [dav|]; [|done].
  destruct (structure_DagDefaultArgs dav) as [da|] eqn:Hdav; [|done].
  injection Hda as ->.
  apply structure_DagDefaultArgs_inv in Hdav as (s & Hsd & Hd & He & Hes & Ht).
  repeat split; try done.
  - by apply validate_tasks_Ok.
  - apply Forall_forall. intros e Hin. rewrite forallb_forall in Hes.
    apply Hes. by apply list_elem_of_In.
  - by exists s.
Qed.

Lemma from_dict_Ok_validated_witness :
  NoDup (task_name <$> tasks dag_example) ∧
  ∃ s, start_date (default_args dag_example) = Some s ∧
       utils.is_date_string s = true.
Proof.
  pose proof (from_dict_Ok_validated (H:=utils.spec) example_config dag_example)
    as Hv.
  destruct Hv as (_ & _ & _ & Hnd & _ & _ & _ & Hsd);
    [vm_compute; reflexivity|].
  split; [exact Hnd | exact Hsd].
Defined.

(** X13. When the body has no ["name"] field, the top-level key is the
    name of the model that [from_dict] builds. *)
Theorem from_dict_name_is_key
    `{Utils} {Task : Type} `{TaskClass Task} `{Converter Task}
    (k : string) (body : dict) (dag : Dag Task) :
  dict_wf body →
  dict_get "name" body = None →
  from_dict [(k, VDict body)] = Ok dag →
  name dag = k.
Proof.
  intros Hwf Hnone Hfrom%from_dict_single_Ok.
  apply (structure_Dag_name _ (VStr k)) in Hfrom; [done|].
  rewrite dict_get_update, Hnone by done. cbn [dict_get].
  by rewrite decide_True.
Qed.

Lemma from_dict_name_is_key_witness : name dag_example = "bqetl_example".
Proof.
  apply (from_dict_name_is_key (H:=utils.spec) "bqetl_example" example_body).
  - apply (bool_decide_unpack _). vm_compute. reflexivity.
  - vm_compute. reflexivity.
  - vm_compute. reflexivity.
Defined.

(** X14. [from_dict] ignores every field of the body that is not an
    attribute of [Dag]: setting such a field, new or already there, changes
    neither whether a model is built nor the model. *)
Theorem from_dict_ignores_unknown_field
    `{Utils} {Task : Type} `{TaskClass Task} `{Converter Task}
    (k k' : string) (v : value) (body : dict) (dag : Dag Task) :
  dict_wf body →
  k' ∉ ["name"; "schedule_interval"; "default_args"; "tasks"] →
  from_dict [(k, VDict (dict_set k' v body))] = Ok dag ↔
  from_dict [(k, VDict body)] = Ok dag.
Proof.
  intros Hwf Hk'. rewrite !from_dict_single_Ok.
  rewrite (structure_Dag_ext (dict_update [("name", VStr k)] (dict_set k' v body))
             (dict_update [("name", VStr k)] body)); [done|].
  intros a Ha. rewrite !dict_get_update by auto using dict_set_wf.
  rewrite dict_get_set_ne; [done|]. by intros ->.
Qed.

Lemma from_dict_ignores_unknown_field_witness :
  from_dict (H:=utils.spec)
    [("bqetl_example", VDict (example_body ++ [("description", VStr "daily job")]))]
    = Ok dag_example.
Proof.
  apply (from_dict_ignores_unknown_field (H:=utils.spec) "bqetl_example"
           "description" (VStr "daily job") example_body dag_example).
  - apply (bool_decide_unpack _). vm_compute. reflexivity.
  - apply (bool_decide_unpack _). vm_compute. reflexivity.
  - vm_compute. reflexivity.
Defined.

Section structure_facts.
Context `{Utils} {Task : Type} `{TaskClass Task} `{Converter Task}.

Lemma mapM_structure_str (l : list string) :
  mapM structure_str (VStr <$> l) = Ok l.
Proof.
  induction l as [|s l IH]; [done|].
  cbn [fmap list_fmap mapM structure_str py_str mbind result_bind] in *.
  by rewrite IH.
Qed.

Lemma structure_list_str (l : list string) :
  structure_list structure_str (VList (VStr <$> l)) = Ok l.
Proof.
  unfold structure_list. cbn [iterate mbind result_bind].
  apply mapM_structure_str.
Qed.

(** The keyword arguments that the converter passes for [to_dict self]. *)
Lemma structure_DagDefaultArgs_to_dict (self : DagDefaultArgs) :
  structure_DagDefaultArgs (VDict (to_dict self)) =
    DagDefaultArgs_init
      {| kw_owner := Some (owner self);
         kw_start_date :=
           Some (Some (from_option id (str_of VNone) (start_date self)));
         kw_email := Some (email self);
         kw_depends_on_past := Some (depends_on_past self);
         kw_retry_delay := Some (retry_delay self);
         kw_email_on_failure := Some (email_on_failure self);
         kw_email_on_retry := Some (email_on_retry self);
         kw_retries := Some (retries self) |}.
Proof.
  destruct self as [o sd em dp rd ef er rt].
  unfold structure_DagDefaultArgs, structure_attr, to_dict.
  cbn [owner start_date email depends_on_past retry_delay email_on_failure
       email_on_retry retries].
  remember (VList (VStr <$> em)) as vem eqn:Hvem.
  eval_dict_get. subst vem.
  cbn [fmap result_fmap mbind result_bind structure_str structure_bool
       structure_int py_str].
  rewrite structure_list_str.
  by destruct sd.
Qed.
End structure_facts.

(** X15. A body without [default_args] (and without [tasks]) is rejected
    with a [DagParseException] whose cause is the constructor's
    [TypeError]: it names [default_args] among the missing arguments, and
    never [name], which [from_dict] supplies. *)
Theorem from_dict_missing_default_args
    `{Utils} {Task : Type} `{TaskClass Task} `{Converter Task}
    (k : string) (body : dict) :
  dict_wf body →
  dict_get "default_args" body = None →
  dict_get "tasks" body = None →
  ∃ names,
    from_dict [(k, VDict body)] =
      Raise (DagParseException [(k, VDict body)] (Some (MissingArguments names))) ∧
    "default_args" ∈ names ∧
    "name" ∉ names.
Proof.
  intros Hwf Hda Hts. rewrite from_dict_single.
  cbn [flatten mbind result_bind]. unfold structure_Dag.
  rewrite !structure_attr_str.
  rewrite (structure_attr_None _ "default_args"),
    (structure_attr_None _ "tasks")
    by (rewrite dict_get_update by done;
        first [by rewrite Hda | by rewrite Hts]).
  cbn [mbind result_bind]. unfold Dag_init.
  cbn [kw_name kw_schedule_interval kw_default_args].
  assert (∃ n, dict_get "name" (dict_update [("name", VStr k)] body) = Some n)
    as [n ->].
  { rewrite dict_get_update by done.
    destruct (dict_get "name" body); by eexists. }
  cbn [fmap option_fmap option_map].
  destruct (py_str <$> _) as [si|];
    (eexists; split; [reflexivity|]);
    rewrite !missing_cons; change (missing []) with (@nil string); cbn;
    rewrite ?not_elem_of_cons, ?elem_of_cons;
    (split; [by auto|]); repeat split; first [done | apply not_elem_of_nil].
Qed.

Lemma from_dict_missing_default_args_witness :
  from_dict (H:=utils.spec) (Task:=task.Task) config_without_default_args
    = Raise (DagParseException config_without_default_args
               (Some (MissingArguments ["default_args"]))).
Proof.
  destruct (from_dict_missing_default_args (H:=utils.spec) (Task:=task.Task)
              "bqetl_example" [("schedule_interval", VStr "@daily")])
    as (names & Hraise & _).
  - apply (bool_decide_unpack _). vm_compute. reflexivity.
  - reflexivity.
  - reflexivity.
  - unfold config_without_default_args. rewrite Hraise.
    vm_compute in Hraise. congruence.
Defined.

(** X16. The default arguments are structured, and so validated, before
    the [Dag] itself is constructed: a [ValueError] of their validators is
    what [from_dict] raises, unwrapped, whatever the name, the schedule
    interval and the tasks of the configuration are. *)
Theorem from_dict_default_args_error_first
    `{Utils} {Task : Type} `{TaskClass Task} `{Converter Task}
    (k : string) (body : dict) (dav : value) (e : value_error) :
  dict_wf body →
  dict_get "default_args" body = Some dav →
  structure_DagDefaultArgs dav = Raise (ValueError e) →
  from_dict [(k, VDict body)] = Raise (ValueError e).
Proof.
  intros Hwf Hda Hraise. rewrite from_dict_single.
  cbn [flatten mbind result_bind]. unfold structure_Dag.
  rewrite !structure_attr_str.
  rewrite (structure_attr_Some _ "default_args" _ dav)
    by (rewrite dict_get_update by done; by rewrite Hda).
  by rewrite Hraise.
Qed.

Lemma from_dict_default_args_error_first_witness :
  from_dict (H:=utils.spec) (Task:=task.Task) config_all_bad
    = Raise (ValueError (InvalidOwner "nobody")).
Proof.
  apply (from_dict_default_args_error_first (H:=utils.spec) "example" _
           (VDict [("owner", VStr "nobody"); ("start_date", VStr "2020-01-01")])).
  - apply (bool_decide_unpack _). vm_compute. reflexivity.
  - reflexivity.
  - vm_compute. reflexivity.
Defined.

(** X17. Structuring the mapping that [to_dict] returns gives the instance
    back, for every constructed instance whose [start_date] is a string:
    the mapping holds every field under the name and in the shape the
    converter reads. *)
Theorem structure_to_dict_roundtrip
    `{Utils} {Task : Type} `{TaskClass Task} `{Converter Task} kw self s :
  DagDefaultArgs_init kw = Ok self →
  start_date self = Some s →
  structure_DagDefaultArgs (VDict (to_dict self)) = Ok self.
Proof.
  intros Hinit Hs. rewrite structure_DagDefaultArgs_to_dict.
  apply DagDefaultArgs_init_inv in Hinit
    as (o & sd & Ho & Hsd & -> & He & Hd & Hes & Ht).
  cbn [start_date DagDefaultArgs_assigned] in *. subst sd.
  cbn [from_option id].
  etrans; [apply (DagDefaultArgs_init_Ok _ o (Some s)); done|reflexivity].
Qed.

Lemma structure_to_dict_roundtrip_witness :
  structure_DagDefaultArgs (H:=utils.spec) (Task:=task.Task)
    (VDict (to_dict default_args_example)) = Ok default_args_example.
Proof.
  apply (structure_to_dict_roundtrip (H:=utils.spec) (Task:=task.Task)
           kwargs_dated default_args_example "2020-01-01").
  - vm_compute. reflexivity.
  - reflexivity.
Defined.

(** ** [to_airflow_dag], continued *)

Section to_airflow_dag_more.
Context {Task : Type} `{TaskClass Task}.
Context {World Client DagCollection Obj Template : Type}.
Variable with_dependencies :
  Task → Client → DagCollection → World → World * result unit.
Variable default_filters : gmap string Obj.
Variable formatters : list (string * Obj).
Variable callable : Obj → bool.
Variable get_template : gmap string Obj → string → result Template.
Variable render : Template → Dag Task → World → result string.
Variables (client : Client) (dag_collection : DagCollection).

(** The three ways a run can go, by the template and the wiring. *)
Lemma to_airflow_dag_run (self : Dag Task) (w : World) :
  to_airflow_dag with_dependencies default_filters formatters callable
                 get_template render self client dag_collection
                 (mkOutside w []) =
    match get_template (load_formatters formatters callable default_filters)
                       AIRFLOW_DAG_TEMPLATE with
    | Raise e => (mkOutside w [GetTemplate AIRFLOW_DAG_TEMPLATE], Raise e)
    | Ok dag_template =>
        match for_each (fun task => call_with_dependencies with_dependencies
                                      task client dag_collection)
                       (tasks self)
                       (mkOutside w [GetTemplate AIRFLOW_DAG_TEMPLATE]) with
        | (o, Ok _) => (record_event Render o, render dag_template self (world o))
        | (o, Raise e) => (o, Raise e)
        end
    end.
Proof.
  unfold to_airflow_dag, mbind, method_bind, call_get_template, call_render.
  cbn [record_event world log app].
  by destruct (get_template _ _).
Qed.

(** X18. [to_airflow_dag] returns a text exactly when the template loads,
    every task is wired without an exception and the rendering succeeds;
    the calls made are then the template lookup, one wiring call per task
    in sequence order and the rendering, and the text is the one rendered
    in the world the wiring left. *)
Theorem to_airflow_dag_returns_text_iff
    (self : Dag Task) (w : World) (o' : outside World Task) (text : string) :
  to_airflow_dag with_dependencies default_filters formatters callable
                 get_template render self client dag_collection
                 (mkOutside w []) = (o', Ok text) ↔
  ∃ dag_template,
    get_template (load_formatters formatters callable default_filters)
                 AIRFLOW_DAG_TEMPLATE = Ok dag_template ∧
    for_each (fun task => with_dependencies task client dag_collection)
             (tasks self) w = (world o', Ok ()) ∧
    render dag_template self (world o') = Ok text ∧
    log o' = GetTemplate AIRFLOW_DAG_TEMPLATE
               :: (WithDependencies <$> tasks self) ++ [Render].
Proof.
  rewrite to_airflow_dag_run. split.
  - destruct (get_template _ _) as [tmpl|]; [|done].
    destruct (for_each_cases
                (fun task => with_dependencies task client dag_collection)
                (tasks self) w)
      as [[w' Hok]|(pre & t & suf & w1 & w2 & e & Htasks & Hpre & Ht & _)].
    + rewrite (for_each_call_wire_Ok _ _ _ _ _ _ _ Hok).
      intros [= <- Hr]. by exists tmpl.
    + rewrite Htasks, (for_each_call_wire_Raise _ _ _ _ _ _ _ _ _ _ _ Hpre Ht).
      done.
  - intros (tmpl & -> & Hwire & Hr & Hlog).
    rewrite (for_each_call_wire_Ok _ _ _ _ _ _ _ Hwire), <-Hr.
    destruct o' as [w' lg]. cbn [record_event world log] in *. by rewrite Hlog.
Qed.

(** X19. When [to_airflow_dag] raises, the exception and the calls made
    are one of three: the template did not load and no task was touched;
    or the wiring of one task raised, after the tasks before it had been
    wired and with no later task touched and nothing rendered; or every
    task was wired and the rendering raised.  In each case the world keeps
    what the wiring calls did. *)
Theorem to_airflow_dag_raises_cases
    (self : Dag Task) (w : World) (o' : outside World Task) (e : exn) :
  to_airflow_dag with_dependencies default_filters formatters callable
                 get_template render self client dag_collection
                 (mkOutside w []) = (o', Raise e) →
  (get_template (load_formatters formatters callable default_filters)
                AIRFLOW_DAG_TEMPLATE = Raise e ∧
   o' = mkOutside w [GetTemplate AIRFLOW_DAG_TEMPLATE]) ∨
  (∃ pre task suf w1,
     tasks self = pre ++ task :: suf ∧
     for_each (fun task => with_dependencies task client dag_collection)
              pre w = (w1, Ok ()) ∧
     with_dependencies task client dag_collection w1 = (world o', Raise e) ∧
     log o' = GetTemplate AIRFLOW_DAG_TEMPLATE
                :: (WithDependencies <$> pre ++ [task])) ∨
  (∃ dag_template,
     get_template (load_formatters formatters callable default_filters)
                  AIRFLOW_DAG_TEMPLATE = Ok dag_template ∧
     for_each (fun task => with_dependencies task client dag_collection)
              (tasks self) w = (world o', Ok ()) ∧
     render dag_template self (world o') = Raise e ∧
     log o' = GetTemplate AIRFLOW_DAG_TEMPLATE
                :: (WithDependencies <$> tasks self) ++ [Render]).
Proof.
  rewrite to_airflow_dag_run.
  destruct (get_template _ _) as [tmpl|e0]; [|intros [= <- <-]; by left].
  destruct (for_each_cases
              (fun task => with_dependencies task client dag_collection)
              (tasks self) w)
    as [[w' Hok]|(pre & t & suf & w1 & w2 & e1 & Htasks & Hpre & Ht & _)].
  - rewrite (for_each_call_wire_Ok _ _ _ _ _ _ _ Hok).
    intros [= <- Hr]. right; right. by exists tmpl.
  - rewrite Htasks, (for_each_call_wire_Raise _ _ _ _ _ _ _ _ _ _ _ Hpre Ht).
    intros [= <- <-]. right; left. by exists pre, t, suf, w1.
Qed.
End to_airflow_dag_more.

Lemma to_airflow_dag_raises_cases_witness :
  ∃ pre task suf w1,
    tasks dag_AB = pre ++ task :: suf ∧
    for_each (fun task => wiring.with_dependencies task () ()) pre []
      = (w1, Ok ()) ∧
    wiring.with_dependencies task () () w1
      = (["A"], Raise (ForeignError "unresolved dependency")).
Proof.
  destruct (to_airflow_dag_raises_cases
              wiring.with_dependencies ∅ [] (fun _ => true)
              wiring.get_template wiring.render () () dag_AB []
              (mkOutside ["A"]
                 [GetTemplate "airflow_dag.j2"; WithDependencies task_A;
                  WithDependencies task_B])
              (ForeignError "unresolved dependency") eq_refl)
    as [[[=] _]|[(pre & t & suf & w1 & Ht & Hpre & Hw & _)|(tmpl & _ & _ & [=] & _)]].
  by exists pre, t, suf, w1.
Defined.

Section load_formatters_facts.
Context {Obj : Type}.
Variable callable : Obj → bool.

Lemma load_formatters_snoc (formatters : list (string * Obj)) nf filters :
  load_formatters (formatters ++ [nf]) callable filters =
    if callable nf.2
    then <[nf.1 := nf.2]> (load_formatters formatters callable filters)
    else load_formatters formatters callable filters.
Proof. unfold load_formatters. by rewrite foldl_snoc. Qed.

(** X20. The filters that [to_airflow_dag] registers: a name keeps the
    filter of the fresh environment unless the formatter module has a
    callable of that name; every registered object is a filter of the
    fresh environment or a callable of the formatter module under its own
    name, so nothing that is not callable is registered; and since [dir]
    lists each name once, every callable of the module is registered under
    its name. *)
Theorem load_formatters_lookup
    (formatters : list (string * Obj)) (filters : gmap string Obj) (n : string) :
  ((∀ f, (n, f) ∈ formatters → callable f = false) →
   load_formatters formatters callable filters !! n = filters !! n) ∧
  (∀ f, load_formatters formatters callable filters !! n = Some f →
        filters !! n = Some f ∨ ((n, f) ∈ formatters ∧ callable f = true)) ∧
  (NoDup formatters.*1 →
   ∀ f, (n, f) ∈ formatters → callable f = true →
        load_formatters formatters callable filters !! n = Some f).
Proof.
  induction formatters as [|[n' f'] formatters IH] using rev_ind.
  { split; [done|]. split; [by left|]. by intros _ f ?%elem_of_nil. }
  destruct IH as (IHa & IHb & IHc).
  rewrite load_formatters_snoc. cbn [fst snd]. split; [|split].
  - intros Hnc.
    assert (load_formatters formatters callable filters !! n = filters !! n) as Hl.
    { apply IHa. intros f Hf. apply Hnc, elem_of_app. by left. }
    destruct (callable f') eqn:Hf'; [|done].
    rewrite lookup_insert_ne; [done|]. intros ->.
    rewrite Hnc in Hf'; [done|]. apply elem_of_app. right. apply list_elem_of_here.
  - intros f Hf. setoid_rewrite elem_of_app.
    destruct (callable f') eqn:Hf'.
    + destruct (decide (n' = n)) as [->|Hne].
      * rewrite lookup_insert_eq in Hf. injection Hf as ->.
        right. split; [|done]. right. apply list_elem_of_here.
      * rewrite lookup_insert_ne in Hf by done.
        destruct (IHb f Hf) as [?|[? ?]]; auto.
    + destruct (IHb f Hf) as [?|[? ?]]; auto.
  - rewrite fmap_app, NoDup_app. intros (Hnd & Hfresh & _) f Hin Hf.
    apply elem_of_app in Hin as [Hin|Hin%list_elem_of_singleton].
    + assert (n' ≠ n) as Hne.
      { intros ->. apply (Hfresh n).
        - apply list_elem_of_fmap. by exists (n, f).
        - apply list_elem_of_here. }
      assert (load_formatters formatters callable filters !! n = Some f) as Hl
        by by apply IHc.
      destruct (callable f'); [by rewrite lookup_insert_ne|done].
    + injection Hin as -> ->. rewrite Hf. apply lookup_insert_eq.
Qed.
End load_formatters_facts.

(** A formatter module with a callable [format_date] and a constant
    [DATE_FORMAT]; callables are marked [true]. *)
Definition formatters_example : list (string * bool) :=
  [("DATE_FORMAT", false); ("format_date", true)].

Lemma load_formatters_lookup_witness :
  load_formatters formatters_example id ∅ !! "DATE_FORMAT" = None ∧
  load_formatters formatters_example id ∅ !! "format_date" = Some true.
Proof.
  split.
  - rewrite (proj1 (load_formatters_lookup id formatters_example ∅ "DATE_FORMAT"));
      [done|].
    intros f Hf. unfold formatters_example in Hf.
    rewrite !elem_of_cons, elem_of_nil in Hf.
    destruct Hf as [[= ->]|[[=]|[]]]. done.
  - apply (proj2 (proj2 (load_formatters_lookup id formatters_example ∅
                           "format_date"))).
    + apply (bool_decide_unpack _). vm_compute. reflexivity.
    + apply list_elem_of_further, list_elem_of_here.
    + done.
Defined.
